(** * google.js: the GA4 reporting gateway

    A shallow embedding of [google.js] (range resolution, row flattening,
    the report requester and the five route handlers) together with the
    parts of the ECMAScript host the file relies on: IEEE-754 doubles,
    [Number] applied to strings, [Array.prototype.sort] and [slice],
    property assignment on a plain object, and the [Date] algorithms. *)

From Stdlib Require Import ZArith Lia List Ascii String SpecFloat.
From stdpp Require Import base option list gmap strings sorting.

Local Open Scope Z_scope.

(** ** Numbers

    A JavaScript number is an IEEE-754 binary64 value.  The Standard
    Library's [spec_float] at precision 53 and maximal exponent 1024 is
    exactly that format (without NaN payloads, which JavaScript cannot
    observe either). *)

Definition prec : Z := 53.
Definition emax : Z := 1024.

Definition number : Type := spec_float.

Definition NaN : number := S754_nan.
Definition Infinity : number := S754_infinity false.
Definition pos_zero : number := S754_zero false.
Definition neg_zero : number := S754_zero true.

#[global] Instance number_eq_dec : EqDecision number.
Proof. solve_decision. Defined.

(** The double nearest to an integer (ties to even). *)
Definition num_of_Z (z : Z) : number := binary_normalize prec emax z 0 false.

(** A double is well formed when its mantissa and exponent are the
    canonical ones of the format. *)
Definition num_valid (x : number) : bool := valid_binary prec emax x.

Definition is_nan (x : number) : bool :=
  match x with S754_nan => true | _ => false end.

(** [x - y] on numbers. *)
Definition num_sub (x y : number) : number := SFsub prec emax x y.

(** [x < y] and [x <= y] on numbers; both are false when a side is NaN. *)
Definition num_ltb (x y : number) : bool := SFltb x y.
Definition num_leb (x y : number) : bool := SFleb x y.

(** ToIntegerOrInfinity (ECMA-262 7.1.5): NaN and the zeros give 0, the
    infinities stay, a finite value is truncated toward zero. *)
Inductive integral : Type :=
  | NegInfinity
  | Finite (z : Z)
  | PosInfinity.

Definition ToIntegerOrInfinity (x : number) : integral :=
  match x with
  | S754_nan => Finite 0
  | S754_zero _ => Finite 0
  | S754_infinity s => if s then NegInfinity else PosInfinity
  | S754_finite s m e => Finite (cond_Zopp s (Z.shiftl (Zpos m) e))
  end.

(** *** Number applied to a string (ECMA-262 7.1.4.1.1, StringToNumber)

    Strings are byte strings holding UTF-8; they are decoded to code
    points first, so that the non-ASCII white space of the
    StrWhiteSpaceChar production is recognised. *)

Definition bytes_of_string (s : string) : list Z :=
  map (fun c => Z.of_N (N_of_ascii c)) (list_ascii_of_string s).

Definition is_cont (b : Z) : bool := (128 <=? b) && (b <=? 191).

(** Malformed sequences decode to U+FFFD, one byte at a time. *)
Fixpoint decode_utf8 (l : list Z) : list Z :=
  match l with
  | [] => []
  | b0 :: l1 =>
    if b0 <? 128 then b0 :: decode_utf8 l1
    else match l1 with
    | b1 :: l2 =>
      if (192 <=? b0) && (b0 <=? 223) && is_cont b1
      then ((b0 - 192) * 64 + (b1 - 128)) :: decode_utf8 l2
      else match l2 with
      | b2 :: l3 =>
        if (224 <=? b0) && (b0 <=? 239) && is_cont b1 && is_cont b2
        then ((b0 - 224) * 4096 + (b1 - 128) * 64 + (b2 - 128)) :: decode_utf8 l3
        else match l3 with
        | b3 :: l4 =>
          if (240 <=? b0) && (b0 <=? 247) && is_cont b1 && is_cont b2 && is_cont b3
          then ((b0 - 240) * 262144 + (b1 - 128) * 4096 + (b2 - 128) * 64 + (b3 - 128))
                 :: decode_utf8 l4
          else 65533 :: decode_utf8 l1
        | [] => 65533 :: decode_utf8 l1
        end
      | [] => 65533 :: decode_utf8 l1
      end
    | [] => [65533]
    end
  end.

Definition code_points (s : string) : list Z := decode_utf8 (bytes_of_string s).

(** StrWhiteSpaceChar: WhiteSpace (TAB, VT, FF, ZWNBSP and the space
    separators) and LineTerminator (LF, CR, LS, PS). *)
Definition is_white_space (c : Z) : bool :=
  (c =? 9) || (c =? 10) || (c =? 11) || (c =? 12) || (c =? 13) || (c =? 32)
  || (c =? 160) || (c =? 5760) || ((8192 <=? c) && (c <=? 8202))
  || (c =? 8232) || (c =? 8233) || (c =? 8239) || (c =? 8287)
  || (c =? 12288) || (c =? 65279).

Fixpoint trim_start (l : list Z) : list Z :=
  match l with
  | c :: l' => if is_white_space c then trim_start l' else l
  | [] => []
  end.

Definition trim (l : list Z) : list Z := rev (trim_start (rev (trim_start l))).

(** The value of a digit in a radix, if it is one. *)
Definition digit_of (radix c : Z) : option Z :=
  let v := if (48 <=? c) && (c <=? 57) then c - 48
           else if (97 <=? c) && (c <=? 102) then c - 87
           else if (65 <=? c) && (c <=? 70) then c - 55
           else 99 in
  if v <? radix then Some v else None.

(** The longest prefix of digits, and what follows it. *)
Fixpoint span_digits (radix : Z) (l : list Z) : list Z * list Z :=
  match l with
  | c :: l' =>
    match digit_of radix c with
    | Some v => let '(ds, r) := span_digits radix l' in (v :: ds, r)
    | None => ([], l)
    end
  | [] => ([], [])
  end.

Definition digits_value (radix : Z) (ds : list Z) : Z :=
  fold_left (fun acc d => acc * radix + d) ds 0.

(** The double nearest to [n * 10 ^ e10] for [n > 0], with sign [s]. *)
Definition round_decimal (s : bool) (n e10 : Z) : number :=
  if 0 <=? e10 then binary_normalize prec emax (cond_Zopp s (n * 10 ^ e10)) 0 false
  else
    let '(q, e, l) := SFdiv_core_binary prec emax n 0 (10 ^ (- e10)) 0 in
    binary_round_aux prec emax s q e l.

(** An optional sign: whether it is a minus, and what follows it. *)
Definition parse_sign (l : list Z) : bool * list Z :=
  match l with
  | c :: l1 => if c =? 43 then (false, l1) else if c =? 45 then (true, l1) else (false, l)
  | [] => (false, l)
  end.

(** ExponentPart_opt followed by the end of the literal. *)
Definition parse_exponent (l : list Z) : option Z :=
  match l with
  | [] => Some 0
  | c :: l1 =>
    if (c =? 101) || (c =? 69) then
      let '(neg, l2) := parse_sign l1 in
      match span_digits 10 l2 with
      | (d :: ds, []) => Some (cond_Zopp neg (digits_value 10 (d :: ds)))
      | _ => None
      end
    else None
  end.

(** The digits after a decimal point, if there is one. *)
Definition parse_fraction (l : list Z) : list Z * list Z :=
  match l with
  | c :: l1 => if c =? 46 then span_digits 10 l1 else ([], l)
  | [] => ([], l)
  end.

(** StrUnsignedDecimalLiteral other than Infinity: digits on at least
    one side of the point, then the exponent. *)
Definition parse_unsigned_decimal (s : bool) (l : list Z) : number :=
  let '(ip, l1) := span_digits 10 l in
  let '(fp, l2) := parse_fraction l1 in
  match ip ++ fp with
  | [] => NaN
  | ds =>
    match parse_exponent l2 with
    | None => NaN
    | Some e =>
      let n := digits_value 10 ds in
      if n =? 0 then S754_zero s
      else round_decimal s n (e - Z.of_nat (length fp))
    end
  end.

Definition Infinity_literal : list Z := [73; 110; 102; 105; 110; 105; 116; 121].

Definition parse_decimal (l : list Z) : number :=
  let '(s, l1) := parse_sign l in
  if decide (l1 = Infinity_literal) then S754_infinity s
  else parse_unsigned_decimal s l1.

(** NonDecimalIntegerLiteral: no sign, at least one digit, nothing after. *)
Definition parse_radix (radix : Z) (l : list Z) : number :=
  match span_digits radix l with
  | (d :: ds, []) => num_of_Z (digits_value radix (d :: ds))
  | _ => NaN
  end.

(** The radix that a two-character prefix [0x], [0o] or [0b] announces. *)
Definition radix_prefix (l : list Z) : option (Z * list Z) :=
  match l with
  | c0 :: c :: l' =>
    if negb (c0 =? 48) then None
    else if (c =? 120) || (c =? 88) then Some (16, l')
    else if (c =? 111) || (c =? 79) then Some (8, l')
    else if (c =? 98) || (c =? 66) then Some (2, l')
    else None
  | _ => None
  end.

Definition StringToNumber (str : string) : number :=
  let lit := trim (code_points str) in
  match lit with
  | [] => pos_zero
  | _ =>
    match radix_prefix lit with
    | Some (radix, l) => parse_radix radix l
    | None => parse_decimal lit
    end
  end.

(** ** Values, completions and plain objects *)

(** The primitive values that flow through the gateway. *)
Inductive val : Type :=
  | VUndefined
  | VNull
  | VNum (n : number)
  | VStr (s : string).

#[global] Instance val_eq_dec : EqDecision val.
Proof. solve_decision. Defined.

(** ToNumber on primitives (ECMA-262 7.1.4). *)
Definition ToNumber (v : val) : number :=
  match v with
  | VUndefined => NaN
  | VNull => pos_zero
  | VNum n => n
  | VStr s => StringToNumber s
  end.

(** [v ?? d] *)
Definition nullish_or (v d : val) : val :=
  match v with
  | VUndefined | VNull => d
  | _ => v
  end.

(** A thrown value is an Error object; only its [message] is read. *)
Record Error : Type := { error_name : string; message : string }.

#[global] Instance Error_eq_dec : EqDecision Error.
Proof. solve_decision. Defined.

(** The outcome of an evaluation that may throw, or of an awaited
    promise that may reject. *)
Inductive completion (A : Type) : Type :=
  | Normal (a : A)
  | Throw (e : Error).
Arguments Normal {A} a.
Arguments Throw {A} e.

#[global] Instance completion_ret : MRet completion := @Normal.

#[global] Instance completion_bind : MBind completion :=
  fun A B (k : A -> completion B) (c : completion A) =>
    match c with
    | Normal a => k a
    | Throw e => Throw e
    end.

(** [arr.map(f)] with a callback that may throw: the first throw aborts. *)
Fixpoint map_throwing {A B : Type} (f : A -> completion B) (l : list A) : completion (list B) :=
  match l with
  | [] => Normal []
  | a :: l' => b ← f a; bs ← map_throwing f l'; Normal (b :: bs)
  end.

(** [arr.forEach(f)] threading an accumulator, the index passed along. *)
Fixpoint forEach_from {A St : Type} (f : St -> A -> nat -> St) (i : nat) (l : list A) (s : St) : St :=
  match l with
  | [] => s
  | a :: l' => forEach_from f (S i) l' (f s a i)
  end.

Definition forEach {A St : Type} (f : St -> A -> nat -> St) (l : list A) (s : St) : St :=
  forEach_from f 0%nat l s.

(** A plain object created by [{}]: its own properties and its
    prototype, which is [Object.prototype] until something replaces it.
    The order of the keys is not recorded. *)
Inductive prototype : Type := ObjectPrototype | NullPrototype.

Record object : Type := { proto : prototype; props : gmap string val }.

Definition empty_object : object := {| proto := ObjectPrototype; props := ∅ |}.

(** [o[k] = v] (OrdinarySet).  An own property is overwritten.  Otherwise
    the prototype chain is searched: [Object.prototype] holds data
    properties only, which let a new own property be created, except for
    the accessor [__proto__], whose setter replaces the prototype when
    [v] is null (or an object) and ignores any other primitive. *)
Definition set_prop (o : object) (k : string) (v : val) : object :=
  match props o !! k, proto o with
  | None, ObjectPrototype =>
    if decide (k = "__proto__") then
      match v with
      | VNull => {| proto := NullPrototype; props := props o |}
      | _ => o
      end
    else {| proto := proto o; props := <[k := v]> (props o) |}
  | _, _ => {| proto := proto o; props := <[k := v]> (props o) |}
  end.

(** [o.k] for a name that [Object.prototype] does not define (every name
    the gateway reads is such a name): the own property, or undefined. *)
Definition get_prop (o : object) (k : string) : val :=
  default VUndefined (props o !! k).

(** ** Arrays *)

(** What the comparator's result means to the sort (SortCompare): NaN
    counts as +0, and only the sign matters. *)
Definition sort_sign (v : number) : comparison :=
  if num_ltb v pos_zero then Lt
  else if num_ltb pos_zero v then Gt
  else Eq.

(** [Array.prototype.sort(comparefn)].  ECMAScript requires a stable sort
    and leaves the algorithm open; when the comparator is consistent
    every conforming algorithm returns the array computed by this stable
    insertion sort.  When it is not (a key is NaN) the order depends on
    the engine. *)
Fixpoint sort_insert {A : Type} (comparefn : A -> A -> number) (x : A) (l : list A) : list A :=
  match l with
  | [] => [x]
  | y :: l' =>
    match sort_sign (comparefn x y) with
    | Gt => y :: sort_insert comparefn x l'
    | _ => x :: l
    end
  end.

Definition array_sort {A : Type} (comparefn : A -> A -> number) (l : list A) : list A :=
  foldr (sort_insert comparefn) [] l.

(** A relative index of [slice], clamped into [0, len]. *)
Definition clamp_index (len : Z) (rel : integral) : Z :=
  match rel with
  | NegInfinity => 0
  | Finite z => if z <? 0 then Z.max (len + z) 0 else Z.min z len
  | PosInfinity => len
  end.

(** [arr.slice(start, end)] (ECMA-262 23.1.3.28). *)
Definition array_slice {A : Type} (l : list A) (start end_ : number) : list A :=
  let len := Z.of_nat (length l) in
  let k := clamp_index len (ToIntegerOrInfinity start) in
  let final := clamp_index len (ToIntegerOrInfinity end_) in
  let count := Z.max (final - k) 0 in
  take (Z.to_nat count) (drop (Z.to_nat k) l).

(** ** Dates (ECMA-262 21.4.1)

    A time value is an integral number of milliseconds since the epoch,
    or NaN.  Every quantity below is an integer well inside the range in
    which doubles are exact, so time values are integers here and NaN is
    [None]. *)

Definition msPerDay : Z := 86400000.

Definition Day (t : Z) : Z := t / msPerDay.
Definition TimeWithinDay (t : Z) : Z := t mod msPerDay.

Definition is_leap_year (y : Z) : bool :=
  ((y mod 4 =? 0) && negb (y mod 100 =? 0)) || (y mod 400 =? 0).

Definition DaysInYear (y : Z) : Z := if is_leap_year y then 366 else 365.

Definition DayFromYear (y : Z) : Z :=
  365 * (y - 1970) + (y - 1969) / 4 - (y - 1901) / 100 + (y - 1601) / 400.

Definition TimeFromYear (y : Z) : Z := msPerDay * DayFromYear y.

(** The largest [y] with [TimeFromYear y <= t]: a first guess from the
    mean length of a year, moved by one when it misses. *)
Definition YearFromTime (t : Z) : Z :=
  let d := Day t in
  let y := 1970 + d * 400 / 146097 in
  if d <? DayFromYear y then y - 1
  else if DayFromYear (y + 1) <=? d then y + 1
  else y.

Definition InLeapYear (t : Z) : bool := is_leap_year (YearFromTime t).

Definition DayWithinYear (t : Z) : Z := Day t - DayFromYear (YearFromTime t).

(** The day within the year on which month [m] (0 to 11) begins. *)
Definition month_start (leap : bool) (m : Z) : Z :=
  let l := if leap then 1 else 0 in
  match m with
  | 0 => 0
  | 1 => 31
  | 2 => 59 + l
  | 3 => 90 + l
  | 4 => 120 + l
  | 5 => 151 + l
  | 6 => 181 + l
  | 7 => 212 + l
  | 8 => 243 + l
  | 9 => 273 + l
  | 10 => 304 + l
  | _ => 334 + l
  end.

Definition MonthFromTime (t : Z) : Z :=
  let d := DayWithinYear t in
  let l := if InLeapYear t then 1 else 0 in
  if d <? 31 then 0
  else if d <? 59 + l then 1
  else if d <? 90 + l then 2
  else if d <? 120 + l then 3
  else if d <? 151 + l then 4
  else if d <? 181 + l then 5
  else if d <? 212 + l then 6
  else if d <? 243 + l then 7
  else if d <? 273 + l then 8
  else if d <? 304 + l then 9
  else if d <? 334 + l then 10
  else 11.

Definition DateFromTime (t : Z) : Z :=
  DayWithinYear t - month_start (InLeapYear t) (MonthFromTime t) + 1.

Definition HourFromTime (t : Z) : Z := (t / 3600000) mod 24.
Definition MinFromTime (t : Z) : Z := (t / 60000) mod 60.
Definition SecFromTime (t : Z) : Z := (t / 1000) mod 60.
Definition msFromTime (t : Z) : Z := t mod 1000.

(** MakeDay on integers.  Its arguments here always come from a valid
    time value, so the first day of the month exists. *)
Definition MakeDay (year month date : Z) : Z :=
  let ym := year + month / 12 in
  let mn := month mod 12 in
  DayFromYear ym + month_start (is_leap_year ym) mn + date - 1.

Definition MakeDate (day time : Z) : Z := day * msPerDay + time.

Definition TimeClip (t : Z) : option Z :=
  if Z.abs t <=? 8640000000000000 then Some t else None.

(** The host's time zone: the offset of local time from UTC, in
    milliseconds, in force at a UTC instant and at a local time value
    (LocalTZA with isUTC true and false). *)
Record TimeZone : Type := {
  offset_at_utc : Z -> Z;
  offset_at_local : Z -> Z
}.

Definition LocalTime (tz : TimeZone) (t : Z) : Z := t + offset_at_utc tz t.
Definition UTC (tz : TimeZone) (t : Z) : Z := t - offset_at_local tz t.

Definition utc_zone : TimeZone :=
  {| offset_at_utc := fun _ => 0; offset_at_local := fun _ => 0 |}.

(** US Eastern time around the end of daylight saving on 2024-11-03,
    06:00 UTC: four hours behind UTC before it, five hours after. *)
Definition eastern_2024 : TimeZone :=
  {| offset_at_utc := fun t => if t <? 1730613600000 then -14400000 else -18000000;
     offset_at_local := fun t => if t <? 1730599200000 then -14400000 else -18000000 |}.

(** A Date object holds a time value. *)
Definition Date : Type := option Z.

(** [date.getDate()] *)
Definition getDate (tz : TimeZone) (date : Date) : option Z :=
  t ← date; Some (DateFromTime (LocalTime tz t)).

(** [date.setDate(dt)]: the new time value of the object. *)
Definition setDate (tz : TimeZone) (date : Date) (dt : option Z) : Date :=
  t ← date;
  let t := LocalTime tz t in
  dt ← dt;
  let newDate := MakeDate (MakeDay (YearFromTime t) (MonthFromTime t) dt) (TimeWithinDay t) in
  TimeClip (UTC tz newDate).

(** The last [w] decimal digits of [n]. *)
Fixpoint digits_string (w : nat) (n : Z) : string :=
  match w with
  | O => EmptyString
  | S w' => digits_string w' (n / 10) +:+ String (ascii_of_N (Z.to_N (48 + n mod 10))) EmptyString
  end.

(** Years 0 to 9999 print with four digits, the others with a sign and
    six. *)
Definition year_string (y : Z) : string :=
  if (0 <=? y) && (y <=? 9999) then digits_string 4 y
  else (if y <? 0 then "-" else "+") +:+ digits_string 6 (Z.abs y).

Definition RangeError_invalid_time : Error :=
  {| error_name := "RangeError"; message := "Invalid time value" |}.

(** [date.toISOString()], in UTC. *)
Definition toISOString (date : Date) : completion string :=
  match date with
  | None => Throw RangeError_invalid_time
  | Some t =>
    Normal (year_string (YearFromTime t) +:+ "-" +:+ digits_string 2 (MonthFromTime t + 1)
            +:+ "-" +:+ digits_string 2 (DateFromTime t)
            +:+ "T" +:+ digits_string 2 (HourFromTime t)
            +:+ ":" +:+ digits_string 2 (MinFromTime t)
            +:+ ":" +:+ digits_string 2 (SecFromTime t)
            +:+ "." +:+ digits_string 3 (msFromTime t) +:+ "Z")
  end.

(** [s.slice(0, n)] on a string. *)
Definition string_prefix (n : nat) (s : string) : string := String.substring 0 n s.


(** ** The upstream report and the request

    The shapes follow the client library's declarations: a field that
    may be missing or null is an [option] where the code treats the two
    alike (through [?.] and [??]), and a [nullable] where it does not (a
    default parameter replaces undefined only). *)

Inductive nullable (A : Type) : Type :=
  | undefined
  | null
  | defined (a : A).
Arguments undefined {A}.
Arguments null {A}.
Arguments defined {A} a.

(** A dimension or metric value of a row: [{ value }]. *)
Record ReportValue : Type := { value : option string }.

Record Row : Type := {
  dimensionValues : option (list ReportValue);
  metricValues : option (list ReportValue)
}.

(** A dimension or metric header: [{ name }]. *)
Record Header : Type := { name : nullable string }.

Record SamplingMetadata : Type := {
  sm_samplesReadCount : val;
  sm_samplingSpaceSize : val
}.

Record ResponseMetaData : Type := {
  md_samplesReadCount : val;
  md_samplingMetadatas : option (list SamplingMetadata)
}.

Record RunReportResponse : Type := {
  res_rows : nullable (list Row);
  res_dimensionHeaders : nullable (list Header);
  res_metricHeaders : nullable (list Header);
  res_rowCount : val;
  res_metadata : option ResponseMetaData
}.

(** A value of [req.query], as the query-string parser builds it: a
    string, an array or a nested object. *)
#[warnings="-register-all"]
Inductive qvalue : Type :=
  | QStr (s : string)
  | QArr (l : list qvalue)
  | QObj (l : list (string * qvalue)).

(** ToString of a query value: an array joins its elements with commas,
    an object prints as [[object Object]]. *)
Fixpoint ToString_q (q : qvalue) : string :=
  match q with
  | QStr s => s
  | QArr l => String.concat "," (map ToString_q l)
  | QObj _ => "[object Object]"
  end.

(** ToBoolean: of these only the empty string is falsy. *)
Definition truthy (q : qvalue) : bool :=
  match q with
  | QStr EmptyString => false
  | _ => true
  end.

(** [Number(q)]: an array or an object is first turned into a string. *)
Definition Number_q (q : qvalue) : number := StringToNumber (ToString_q q).

Record Query : Type := {
  start : option qvalue;
  end_ : option qvalue;
  metric : option qvalue;
  limit : option qvalue
}.

Record DateRange : Type := { startDate : qvalue; endDate : qvalue }.

Record NameRef : Type := { ref_name : string }.

Record RunReportRequest : Type := {
  property : string;
  dateRanges : list DateRange;
  dimensions : list NameRef;
  metrics : list NameRef
}.

(** What a handler runs against: the configured property, the time zone
    and the clock of the host ([now n] is the time value the [n]-th
    [new Date()] of the request reads), and the analytics client, whose
    promise either resolves to a response or rejects with an error. *)
Record Host : Type := {
  PROPERTY_ID : string;
  zone : TimeZone;
  now : nat -> Z;
  analyticsDataClient : RunReportRequest -> completion RunReportResponse
}.

(** ** google.js *)

(** [function toISO(date)] *)
Definition toISO (date : Date) : completion string :=
  s ← toISOString date; Normal (string_prefix 10 s).

(** [function defaultRange(days = 28)]; [days] is an integer. *)
Definition defaultRange (host : Host) (days : option Z) : completion DateRange :=
  let days := default 28 days in
  let end_ : Date := Some (now host 0%nat) in
  let start : Date := Some (now host 1%nat) in
  let start := setDate (zone host) start (d ← getDate (zone host) end_; Some (d - (days - 1))) in
  s ← toISO start;
  e ← toISO end_;
  Normal {| startDate := QStr s; endDate := QStr e |}.

Definition TypeError_not_iterable (what : string) : Error :=
  {| error_name := "TypeError";
     message := "Cannot read properties of null (reading '" +:+ what +:+ "')" |}.

(** The key under which [obj[h.name]] stores: ToPropertyKey of the name. *)
Definition header_key (h : Header) : string :=
  match name h with
  | undefined => "undefined"
  | null => "null"
  | defined s => s
  end.

(** [values?.[i]?.value]: nothing when the array, the element or its
    value is missing or null. *)
Definition value_at (values : option (list ReportValue)) (i : nat) : option string :=
  l ← values; v ← l !! i; value v.

(** [row.dimensionValues?.[i]?.value ?? null] *)
Definition dimension_value (row : Row) (i : nat) : val :=
  match value_at (dimensionValues row) i with
  | Some s => VStr s
  | None => VNull
  end.

(** [Number(row.metricValues?.[i]?.value ?? 0)] *)
Definition metric_value (row : Row) (i : nat) : val :=
  match value_at (metricValues row) i with
  | Some s => VNum (StringToNumber s)
  | None => VNum (ToNumber (VNum pos_zero))
  end.

(** The callback of [rows.map]: the record of one row. *)
Definition row_to_object (dimensionHeaders metricHeaders : nullable (list Header))
    (row : Row) : completion object :=
  let obj := empty_object in
  obj ← match dimensionHeaders with
        | defined hs =>
          Normal (forEach (fun obj h i => set_prop obj (header_key h) (dimension_value row i)) hs obj)
        | _ => Throw (TypeError_not_iterable "forEach")
        end;
  obj ← match metricHeaders with
        | defined hs =>
          Normal (forEach (fun obj h i => set_prop obj (header_key h) (metric_value row i)) hs obj)
        | _ => Throw (TypeError_not_iterable "forEach")
        end;
  Normal obj.

(** A default parameter [= []] replaces undefined, and only undefined. *)
Definition or_empty {A : Type} (x : nullable (list A)) : nullable (list A) :=
  match x with
  | undefined => defined []
  | _ => x
  end.

(** [function rowsToObjects(rows = [], dimensionHeaders = [], metricHeaders = [])] *)
Definition rowsToObjects (rows : nullable (list Row))
    (dimensionHeaders metricHeaders : nullable (list Header)) : completion (list object) :=
  match or_empty rows with
  | defined rows =>
    map_throwing (row_to_object (or_empty dimensionHeaders) (or_empty metricHeaders)) rows
  | _ => Throw (TypeError_not_iterable "map")
  end.

Record Meta : Type := {
  rowCount : val;
  samplesReadCount : val;
  samplingMetadatas : list SamplingMetadata
}.

Record ReportResult : Type := { meta : Meta; rows : list object }.

(** The argument of [analyticsDataClient.runReport]. *)
Definition report_request (host : Host) (dateRanges : list DateRange)
    (dimensions metrics : list string) : RunReportRequest :=
  {| property := "properties/" +:+ PROPERTY_ID host;
     dateRanges := dateRanges;
     dimensions := map (fun name => {| ref_name := name |}) dimensions;
     metrics := map (fun name => {| ref_name := name |}) metrics |}.

(** The [meta] of [runReport]'s result:
    [{ rowCount: res.rowCount ?? 0,
       samplesReadCount: res?.metadata?.samplesReadCount ?? 0,
       samplingMetadatas: res?.metadata?.samplingMetadatas ?? [] }] *)
Definition report_meta (res : RunReportResponse) : Meta :=
  {| rowCount := nullish_or (res_rowCount res) (VNum pos_zero);
     samplesReadCount :=
       nullish_or (default VUndefined (md_samplesReadCount <$> res_metadata res)) (VNum pos_zero);
     samplingMetadatas := default [] (res_metadata res ≫= md_samplingMetadatas) |}.

(** [async function runReport({ dateRanges, dimensions = [], metrics = [] })] *)
Definition runReport (host : Host) (dateRanges : list DateRange)
    (dimensions metrics : option (list string)) : completion ReportResult :=
  let dimensions := default [] dimensions in
  let metrics := default [] metrics in
  res ← analyticsDataClient host (report_request host dateRanges dimensions metrics);
  let meta := report_meta res in
  rows ← rowsToObjects (res_rows res) (res_dimensionHeaders res) (res_metricHeaders res);
  Normal {| meta := meta; rows := rows |}.

(** *** Routes *)

Record Kpis : Type := {
  totalUsers : val;
  activeUsers : val;
  newUsers : val;
  sessions : val;
  screenPageViews : val;
  engagementRate : val;
  averageSessionDuration : val;
  bounceRate : val
}.

(** The object handed to [res.json]. *)
Inductive Body : Type :=
  | OverviewBody (range : DateRange) (kpis : Kpis) (meta : Meta)
  | TimeseriesBody (range : DateRange) (metric : qvalue) (rows : list object)
  | RowsBody (range : DateRange) (rows : list object)
  | ErrorBody (error : string) (details : string).

(** What a handler does: the status and body it sends, and what it
    writes with [console.error]. *)
Record Reply : Type := {
  status : Z;
  body : Body;
  logged : list Error
}.

(** [try { ... res.json(body) } catch (e) { console.error(e);
    res.status(500).json({ error: tag, details: e.message }) }] *)
Definition try_catch (tag : string) (block : completion Body) : Reply :=
  match block with
  | Normal b => {| status := 200; body := b; logged := [] |}
  | Throw e => {| status := 500; body := ErrorBody tag (message e); logged := [e] |}
  end.

(** [range[0]] of
    [[{ ...(start && end ? { startDate: start, endDate: end } : defaultRange(28)) }]],
    the line every route begins with. *)
Definition resolve_range (host : Host) (query : Query) : completion DateRange :=
  match start query, end_ query with
  | Some s, Some e =>
    if truthy s && truthy e then Normal {| startDate := s; endDate := e |}
    else defaultRange host (Some 28)
  | _, _ => defaultRange host (Some 28)
  end.

Definition overview_metrics : list string :=
  ["totalUsers"; "activeUsers"; "newUsers"; "sessions"; "screenPageViews";
   "engagementRate"; "averageSessionDuration"; "bounceRate"].

(** [row.k ?? 0] *)
Definition kpi (row : object) (k : string) : val :=
  nullish_or (get_prop row k) (VNum pos_zero).

(** [app.get('/api/ga/overview', ...)] *)
Definition overview (host : Host) (query : Query) : Reply :=
  try_catch "overview_failed"
    (range ← resolve_range host query;
     data ← runReport host [range] None (Some overview_metrics);
     let row := match rows data with r :: _ => r | [] => empty_object end in
     Normal (OverviewBody range
               {| totalUsers := kpi row "totalUsers";
                  activeUsers := kpi row "activeUsers";
                  newUsers := kpi row "newUsers";
                  sessions := kpi row "sessions";
                  screenPageViews := kpi row "screenPageViews";
                  engagementRate := kpi row "engagementRate";
                  averageSessionDuration := kpi row "averageSessionDuration";
                  bounceRate := kpi row "bounceRate" |}
               (meta data))).

(** [app.get('/api/ga/timeseries', ...)] *)
Definition timeseries (host : Host) (query : Query) : Reply :=
  try_catch "timeseries_failed"
    (let metric := default (QStr "activeUsers") (metric query) in
     range ← resolve_range host query;
     data ← runReport host [range] (Some ["date"]) (Some [ToString_q metric]);
     Normal (TimeseriesBody range metric (rows data))).

(** [(a, b) => b.k - a.k] *)
Definition descending_by (k : string) (a b : object) : number :=
  num_sub (ToNumber (get_prop b k)) (ToNumber (get_prop a k)).

(** [Number(limit)] after [limit = 10] *)
Definition Number_limit (query : Query) : number :=
  match limit query with
  | None => ToNumber (VNum (num_of_Z 10))
  | Some q => Number_q q
  end.

(** [app.get('/api/ga/top-pages', ...)] *)
Definition top_pages (host : Host) (query : Query) : Reply :=
  try_catch "top_pages_failed"
    (range ← resolve_range host query;
     data ← runReport host [range] (Some ["pageTitle"; "pagePath"])
              (Some ["screenPageViews"; "activeUsers"]);
     let rows :=
       array_slice (array_sort (descending_by "screenPageViews") (rows data))
         (num_of_Z 0) (Number_limit query) in
     Normal (RowsBody range rows)).

(** [app.get('/api/ga/sources', ...)] *)
Definition sources (host : Host) (query : Query) : Reply :=
  try_catch "sources_failed"
    (range ← resolve_range host query;
     data ← runReport host [range] (Some ["sessionDefaultChannelGroup"])
              (Some ["sessions"; "activeUsers"; "engagedSessions"]);
     let rows :=
       array_slice (array_sort (descending_by "sessions") (rows data))
         (num_of_Z 0) (Number_limit query) in
     Normal (RowsBody range rows)).

(** [app.get('/api/ga/devices', ...)] *)
Definition devices (host : Host) (query : Query) : Reply :=
  try_catch "devices_failed"
    (range ← resolve_range host query;
     data ← runReport host [range] (Some ["deviceCategory"])
              (Some ["activeUsers"; "sessions"]);
     Normal (RowsBody range (rows data))).

(** *** The routes as a table

    The five handlers differ in their tag, in what they request and in
    how they shape the body; the table lets a statement range over all
    of them. *)

Inductive route : Type := Overview | Timeseries | TopPages | Sources | Devices.

Definition handler (r : route) : Host -> Query -> Reply :=
  match r with
  | Overview => overview
  | Timeseries => timeseries
  | TopPages => top_pages
  | Sources => sources
  | Devices => devices
  end.

Definition route_tag (r : route) : string :=
  match r with
  | Overview => "overview_failed"
  | Timeseries => "timeseries_failed"
  | TopPages => "top_pages_failed"
  | Sources => "sources_failed"
  | Devices => "devices_failed"
  end.

Definition route_dimensions (r : route) : list string :=
  match r with
  | Overview => []
  | Timeseries => ["date"]
  | TopPages => ["pageTitle"; "pagePath"]
  | Sources => ["sessionDefaultChannelGroup"]
  | Devices => ["deviceCategory"]
  end.

Definition route_metrics (r : route) (query : Query) : list string :=
  match r with
  | Overview => overview_metrics
  | Timeseries => [ToString_q (default (QStr "activeUsers") (metric query))]
  | TopPages => ["screenPageViews"; "activeUsers"]
  | Sources => ["sessions"; "activeUsers"; "engagedSessions"]
  | Devices => ["activeUsers"; "sessions"]
  end.

(** The request a route sends upstream once its range is known. *)
Definition route_request (r : route) (host : Host) (query : Query) (range : DateRange)
    : RunReportRequest :=
  report_request host [range] (route_dimensions r) (route_metrics r query).

(** The rows of a body, for the routes that answer with rows. *)
Definition body_rows (b : Body) : option (list object) :=
  match b with
  | TimeseriesBody _ _ rows | RowsBody _ rows => Some rows
  | _ => None
  end.

(** The range a body reports. *)
Definition body_range (b : Body) : option DateRange :=
  match b with
  | OverviewBody range _ _ | TimeseriesBody range _ _ | RowsBody range _ => Some range
  | ErrorBody _ _ => None
  end.

(** The KPI a body reports under a name. *)
Definition body_kpi (b : Body) (k : string) : option val :=
  match b with
  | OverviewBody _ kpis _ =>
    if String.eqb k "totalUsers" then Some (totalUsers kpis)
    else if String.eqb k "activeUsers" then Some (activeUsers kpis)
    else if String.eqb k "newUsers" then Some (newUsers kpis)
    else if String.eqb k "sessions" then Some (sessions kpis)
    else if String.eqb k "screenPageViews" then Some (screenPageViews kpis)
    else if String.eqb k "engagementRate" then Some (engagementRate kpis)
    else if String.eqb k "averageSessionDuration" then Some (averageSessionDuration kpis)
    else if String.eqb k "bounceRate" then Some (bounceRate kpis)
    else None
  | _ => None
  end.

(** The first ten characters of the ISO rendering of a day, given its
    day number: [YYYY-MM-DD] for the years 0 to 9999. *)
Definition civil_date (d : Z) : string :=
  let t := d * msPerDay in
  string_prefix 10
    (year_string (YearFromTime t) +:+ "-" +:+ digits_string 2 (MonthFromTime t + 1)
     +:+ "-" +:+ digits_string 2 (DateFromTime t)).

(** The order of two numbers as [sort] reads it off their difference. *)
Definition num_compare (x y : number) : comparison := default Eq (SFcompare x y).

(** The sign of a number that is neither NaN nor a zero. *)
Definition has_sign (s : bool) (x : number) : Prop :=
  match x with
  | S754_finite s' _ _ | S754_infinity s' => s' = s
  | _ => False
  end.

(** The number a row is ranked by. *)
Definition rank_of (k : string) (row : object) : number := ToNumber (get_prop row k).

(** The record of one row when both header lists are arrays. *)
Definition flat_row (dimensionHeaders metricHeaders : list Header) (row : Row) : object :=
  forEach (fun obj h i => set_prop obj (header_key h) (metric_value row i)) metricHeaders
    (forEach (fun obj h i => set_prop obj (header_key h) (dimension_value row i)) dimensionHeaders
       empty_object).

(** What a route puts in its body once the report is in. *)
Definition route_body (r : route) (query : Query) (range : DateRange) (data : ReportResult)
    : Body :=
  match r with
  | Overview =>
    let row := match rows data with r :: _ => r | [] => empty_object end in
    OverviewBody range
      {| totalUsers := kpi row "totalUsers";
         activeUsers := kpi row "activeUsers";
         newUsers := kpi row "newUsers";
         sessions := kpi row "sessions";
         screenPageViews := kpi row "screenPageViews";
         engagementRate := kpi row "engagementRate";
         averageSessionDuration := kpi row "averageSessionDuration";
         bounceRate := kpi row "bounceRate" |}
      (meta data)
  | Timeseries => TimeseriesBody range (default (QStr "activeUsers") (metric query)) (rows data)
  | TopPages =>
    RowsBody range
      (array_slice (array_sort (descending_by "screenPageViews") (rows data))
         (num_of_Z 0) (Number_limit query))
  | Sources =>
    RowsBody range
      (array_slice (array_sort (descending_by "sessions") (rows data))
         (num_of_Z 0) (Number_limit query))
  | Devices => RowsBody range (rows data)
  end.

(** What a route replies, given the outcome of resolving its range. *)
Definition route_reply (r : route) (host : Host) (query : Query)
    (range : completion DateRange) : Reply :=
  try_catch (route_tag r)
    (range ← range;
     data ← runReport host [range] (Some (route_dimensions r)) (Some (route_metrics r query));
     Normal (route_body r query range data)).

(** The metric by which a route ranks its rows, if it ranks them. *)
Definition designated_metric (r : route) : option string :=
  match r with
  | TopPages => Some "screenPageViews"
  | Sources => Some "sessions"
  | _ => None
  end.

(** [a] may stand before [b] when rows are ranked from high to low. *)
Definition descending {A : Type} (rank : A -> number) (a b : A) : Prop :=
  num_leb (rank b) (rank a) = true.

(** A number [sort] can order: a well-formed double other than NaN. *)
Definition comparable (x : number) : Prop :=
  num_valid x = true /\ is_nan x = false.

(** A key that orders the numbers other than NaN as [SFcompare] does. *)
Definition num_key (x : number) : Z * (Z * Z) :=
  match x with
  | S754_nan => (0, (0, 0))
  | S754_zero _ => (0, (0, 0))
  | S754_infinity s => (if s then -2 else 2, (0, 0))
  | S754_finite s m e => if s then (-1, (- e, - Zpos m)) else (1, (e, Zpos m))
  end.

Definition key_compare (a b : Z * (Z * Z)) : comparison :=
  match a.1 ?= b.1 with
  | Eq => match a.2.1 ?= b.2.1 with
          | Eq => a.2.2 ?= b.2.2
          | c => c
          end
  | c => c
  end.

(** A value whose number, if it is one, is a well-formed double. *)
Definition val_valid (v : val) : Prop :=
  match v with
  | VNum n => num_valid n = true
  | _ => True
  end.

Definition object_valid (o : object) : Prop :=
  forall k v, props o !! k = Some v -> val_valid v.

(** The query without its range parameters. *)
Definition without_range (query : Query) : Query :=
  {| start := None; end_ := None; metric := metric query; limit := limit query |}.

(** ** Sample data *)

Definition example_header (s : string) : Header := {| name := defined s |}.

Definition example_values (l : list string) : list ReportValue :=
  map (fun s => {| value := Some s |}) l.

Definition example_row (dims mets : list string) : Row :=
  {| dimensionValues := Some (example_values dims);
     metricValues := Some (example_values mets) |}.

Definition example_response (dims mets : list string) (rows : list Row) : RunReportResponse :=
  {| res_rows := defined rows;
     res_dimensionHeaders := defined (map example_header dims);
     res_metricHeaders := defined (map example_header mets);
     res_rowCount := VNum (num_of_Z (Z.of_nat (length rows)));
     res_metadata := None |}.

(** A host on UTC whose clock reads 2024-11-10T00:30:00Z. *)
Definition example_host (client : RunReportRequest -> completion RunReportResponse) : Host :=
  {| PROPERTY_ID := "123456789";
     zone := utc_zone;
     now := fun _ => 1731198600000;
     analyticsDataClient := client |}.

(** The same instant on a host that keeps US Eastern time. *)
Definition example_eastern_host : Host :=
  {| PROPERTY_ID := "123456789";
     zone := eastern_2024;
     now := fun _ => 1731198600000;
     analyticsDataClient := fun _ => Normal (example_response [] [] []) |}.

Definition example_query (start end_ limit : option string) : Query :=
  {| start := QStr <$> start; end_ := QStr <$> end_; metric := None; limit := QStr <$> limit |}.

Definition example_error : Error :=
  {| error_name := "Error"; message := "7 PERMISSION_DENIED: no access to the property" |}.

(** Three pages as the upstream reports them for the top-pages view. *)
Definition example_pages : RunReportResponse :=
  example_response ["pageTitle"; "pagePath"] ["screenPageViews"; "activeUsers"]
    [example_row ["Home"; "/"] ["10"; "7"];
     example_row ["Docs"; "/docs"] ["30"; "12"];
     example_row ["Blog"; "/blog"] ["20"; "9"]].

(** Three pages of which the second has a count that is not a number. *)
Definition example_pages_nan : RunReportResponse :=
  example_response ["pageTitle"; "pagePath"] ["screenPageViews"; "activeUsers"]
    [example_row ["Home"; "/"] ["1"; "1"];
     example_row ["Docs"; "/docs"] ["n/a"; "1"];
     example_row ["Blog"; "/blog"] ["2"; "1"]].

(** The KPIs of an empty report. *)
Definition zero_kpis : Kpis :=
  {| totalUsers := VNum pos_zero;
     activeUsers := VNum pos_zero;
     newUsers := VNum pos_zero;
     sessions := VNum pos_zero;
     screenPageViews := VNum pos_zero;
     engagementRate := VNum pos_zero;
     averageSessionDuration := VNum pos_zero;
     bounceRate := VNum pos_zero |}.

(** An overview report that came back without its only row. *)
Definition example_empty_overview : RunReportResponse :=
  example_response [] overview_metrics [].

(** An overview report whose row carries two of the eight metrics. *)
Definition example_partial_overview : RunReportResponse :=
  example_response [] ["totalUsers"; "sessions"] [example_row [] ["42"; "57"]].

(** Two device categories as the upstream reports them. *)
Definition example_devices : RunReportResponse :=
  example_response ["deviceCategory"] ["activeUsers"; "sessions"]
    [example_row ["mobile"] ["3"; "4"]; example_row ["desktop"] ["8"; "9"]].

(** The default window of the sample hosts on UTC. *)
Definition example_range : DateRange :=
  {| startDate := QStr "2024-10-14"; endDate := QStr "2024-11-10" |}.

(** Three days of sessions as the upstream reports them for the time
    series view. *)
Definition example_timeseries : RunReportResponse :=
  example_response ["date"] ["sessions"]
    [example_row ["20240101"] ["5"];
     example_row ["20240102"] ["8"];
     example_row ["20240103"] ["13"]].

(** ** Further definitions for the statements below *)

(** [x == y] on numbers: false when a side is NaN, true for the two
    zeros. *)
Definition num_eqb (x y : number) : bool := SFeqb x y.

(** The rows of a reply, whatever its body. *)
Definition reply_rows (reply : Reply) : option (list object) := body_rows (body reply).

(** The names the headers of a report give to the keys of a record. *)
Definition header_keys (hs : list Header) : list string := map header_key hs.

(** What [runReport] makes of a sample response. *)
Definition example_result (dims mets : list string) (rows : list Row) : ReportResult :=
  {| meta := report_meta (example_response dims mets rows);
     rows := map (flat_row (map example_header dims) (map example_header mets)) rows |}.

(** Four pages of which the first and the third have the same count. *)
Definition example_tied_rows : list Row :=
  [example_row ["Home"; "/"] ["5"; "4"];
   example_row ["Docs"; "/docs"] ["9"; "6"];
   example_row ["Blog"; "/blog"] ["5"; "2"];
   example_row ["About"; "/about"] ["1"; "1"]].

Definition example_tied_pages : RunReportResponse :=
  example_response ["pageTitle"; "pagePath"] ["screenPageViews"; "activeUsers"] example_tied_rows.

Definition example_tied_result : ReportResult :=
  example_result ["pageTitle"; "pagePath"] ["screenPageViews"; "activeUsers"] example_tied_rows.

(** A query that names January 2024 and, perhaps, a limit. *)
Definition example_january (limit : option string) : Query :=
  example_query (Some "2024-01-01") (Some "2024-01-31") limit.

Definition january : DateRange :=
  {| startDate := QStr "2024-01-01"; endDate := QStr "2024-01-31" |}.

(** Reading a date string back: the number its decimal digits spell, and
    the year, month and day at the places [YYYY-MM-DD] puts them. *)
Fixpoint digits_parse (acc : Z) (s : string) : Z :=
  match s with
  | EmptyString => acc
  | String c s' => digits_parse (acc * 10 + (Z.of_N (N_of_ascii c) - 48)) s'
  end.

Definition iso_fields (s : string) : Z * Z * Z :=
  (digits_parse 0 (String.substring 0 4 s),
   digits_parse 0 (String.substring 5 2 s),
   digits_parse 0 (String.substring 8 2 s)).

(** The day number a date string [YYYY-MM-DD] names. *)
Definition iso_day (s : string) : Z :=
  MakeDay (iso_fields s).1.1 ((iso_fields s).1.2 - 1) (iso_fields s).2.

(** The instant [start.setDate(end.getDate() - (days - 1))] leaves in
    [start] when the two clock readings fall on one local day: local
    midnight-relative time is kept, the day moves back, and the result
    is turned to UTC with the offset in force there. *)
Definition default_start (host : Host) (days : option Z) : Z :=
  UTC (zone host) (LocalTime (zone host) (now host 1%nat) - (default 28 days - 1) * msPerDay).

(** An overview report with a count that is not a number, a second row
    and a dimension nobody asked for. *)
Definition example_odd_overview : RunReportResponse :=
  example_response ["country"] ["sessions"; "bounceRate"]
    [example_row ["NL"] ["57"; "n/a"]; example_row ["BE"] ["3"; "0.5"]].

(** The metric a body echoes. *)
Definition body_metric (b : Body) : option qvalue :=
  match b with
  | TimeseriesBody _ metric _ => Some metric
  | _ => None
  end.

(** A time series query that repeats the [metric] parameter, which the
    query-string parser turns into an array. *)
Definition example_two_metrics : Query :=
  {| start := Some (QStr "2024-01-01"); end_ := Some (QStr "2024-01-31");
     metric := Some (QArr [QStr "sessions"; QStr "newUsers"]); limit := None |}.

(** A host on US Eastern time whose clock reads 2024-12-15T00:30:00Z,
    19:30 on the 14th there; standard time has been in force for six
    weeks. *)
Definition example_december_host : Host :=
  {| PROPERTY_ID := "123456789";
     zone := eastern_2024;
     now := fun _ => 1734222600000;
     analyticsDataClient := fun _ => Normal (example_response [] [] []) |}.
(** * Properties *)

(** ** Doubles: rounding keeps the sign *)

Lemma digits2_pos_bounds (m : positive) :
  2 ^ (Zpos (digits2_pos m) - 1) <= Zpos m < 2 ^ Zpos (digits2_pos m).
Proof.
  induction m as [m IH|m IH|]; cbn [digits2_pos].
  - rewrite Pos2Z.inj_succ, Z.pow_succ_r by lia.
    replace (Z.succ (Zpos (digits2_pos m)) - 1) with (Z.succ (Zpos (digits2_pos m) - 1)) by lia.
    rewrite Z.pow_succ_r by lia. lia.
  - rewrite Pos2Z.inj_succ, Z.pow_succ_r by lia.
    replace (Z.succ (Zpos (digits2_pos m)) - 1) with (Z.succ (Zpos (digits2_pos m) - 1)) by lia.
    rewrite Z.pow_succ_r by lia. lia.
  - cbn. lia.
Qed.

Lemma shr_1_m (mrs : shr_record) :
  0 <= shr_m mrs -> shr_m (shr_1 mrs) = shr_m mrs / 2.
Proof.
  destruct mrs as [m r s]. cbn [shr_m]. intros Hm.
  destruct m as [|[p|p|]|p]; cbn [shr_1 shr_m]; try lia;
    Z.to_euclidean_division_equations; lia.
Qed.

Lemma pow2_xO (p : positive) : 2 ^ Zpos p~0 = 2 ^ Zpos p * 2 ^ Zpos p.
Proof. rewrite Pos2Z.inj_xO, <- Z.pow_add_r by lia. f_equal. lia. Qed.

Lemma pow2_xI (p : positive) : 2 ^ Zpos p~1 = 2 * (2 ^ Zpos p * 2 ^ Zpos p).
Proof.
  rewrite Pos2Z.inj_xI, <- Z.pow_add_r, <- Z.pow_succ_r by lia. f_equal. lia.
Qed.

Lemma iter_shr_1_m (p : positive) :
  forall mrs, 0 <= shr_m mrs ->
    shr_m (SpecFloat.iter_pos shr_1 p mrs) = shr_m mrs / 2 ^ Zpos p.
Proof.
  induction p as [p IH|p IH|]; intros mrs Hm; cbn [SpecFloat.iter_pos].
  - assert (H1 : 0 <= shr_m (shr_1 mrs)).
    { rewrite shr_1_m by done. apply Z.div_pos; lia. }
    assert (H2 : 0 <= shr_m (SpecFloat.iter_pos shr_1 p (shr_1 mrs))).
    { rewrite IH by done. apply Z.div_pos; lia. }
    rewrite IH, IH, shr_1_m by done.
    rewrite !Z.div_div by lia. f_equal. rewrite pow2_xI. ring.
  - assert (H2 : 0 <= shr_m (SpecFloat.iter_pos shr_1 p mrs)).
    { rewrite IH by done. apply Z.div_pos; lia. }
    rewrite IH, IH by done.
    rewrite !Z.div_div by lia. f_equal. rewrite pow2_xO. ring.
  - rewrite shr_1_m by done. reflexivity.
Qed.

Lemma shr_fexp_pos (m e : Z) (l : location) :
  0 < m -> emin prec emax <= e ->
  0 < shr_m (shr_fexp prec emax m e l).1 /\ emin prec emax <= (shr_fexp prec emax m e l).2.
Proof.
  intros Hm He. unfold shr_fexp, shr.
  assert (Hrec : shr_m (shr_record_of_loc m l) = m) by (by destruct l as [|[]]).
  destruct m as [|m|m]; try lia. cbn [Zdigits2].
  pose proof (digits2_pos_bounds m) as Hd.
  set (d := Zpos (digits2_pos m)) in *.
  unfold fexp, emin, prec, emax in *.
  destruct (Z.max (d + e - 53) (3 - 1024 - 53) - e) as [|n|n] eqn:Hn; cbn [fst snd].
  - rewrite Hrec. lia.
  - rewrite iter_shr_1_m by (rewrite Hrec; lia). rewrite Hrec. split; [|lia].
    assert (Hn' : Zpos n = d - 53) by lia. rewrite Hn'.
    apply Z.div_str_pos. split; [apply Z.pow_pos_nonneg; lia|].
    etransitivity; [|apply Hd]. apply Z.pow_le_mono_r; lia.
  - rewrite Hrec. lia.
Qed.

Lemma round_nearest_even_ge (m : Z) (l : location) : m <= round_nearest_even m l.
Proof. destruct l as [|[]]; cbn; try lia. destruct (Z.even m); lia. Qed.

Lemma binary_round_aux_sign (s : bool) (m e : Z) (l : location) :
  0 < m -> emin prec emax <= e -> has_sign s (binary_round_aux prec emax s m e l).
Proof.
  intros Hm He. unfold binary_round_aux.
  destruct (shr_fexp_pos m e l Hm He) as [H1 H2].
  destruct (shr_fexp prec emax m e l) as [mrs1 e1]. cbn [fst snd] in *.
  pose proof (round_nearest_even_ge (shr_m mrs1) (loc_of_shr_record mrs1)) as Hr.
  destruct (shr_fexp_pos (round_nearest_even (shr_m mrs1) (loc_of_shr_record mrs1)) e1 loc_Exact)
    as [H3 H4]; [lia|done|].
  destruct (shr_fexp prec emax _ e1 loc_Exact) as [mrs2 e2]. cbn [fst snd] in *.
  destruct (shr_m mrs2) as [|m2|m2]; try lia.
  destruct (e2 <=? emax - prec); done.
Qed.

Lemma binary_round_sign (s : bool) (m : positive) (e : Z) :
  emin prec emax <= e -> has_sign s (binary_round prec emax s m e).
Proof.
  intros He. unfold binary_round.
  destruct (shl_align m e _) as [mz ez] eqn:Hal.
  apply binary_round_aux_sign; [lia|].
  unfold shl_align in Hal.
  destruct (fexp prec emax (Zpos (digits2_pos m) + e) - e) eqn:Hd; inversion Hal; subst; try done.
  unfold fexp. lia.
Qed.

Lemma iter_xO_pow2 (m d : positive) : Zpos (Pos.iter xO m d) = Zpos m * 2 ^ Zpos d.
Proof.
  induction d as [|d IH] using Pos.peano_ind.
  - cbn. lia.
  - rewrite Pos.iter_succ, Pos2Z.inj_xO, IH, Pos2Z.inj_succ, Z.pow_succ_r by lia. ring.
Qed.

Lemma shl_align_value (m : positive) (e ez : Z) :
  ez <= e -> Zpos (shl_align m e ez).1 = Zpos m * 2 ^ (e - ez).
Proof.
  intros He. unfold shl_align.
  destruct (ez - e) as [|d|d] eqn:Hd; cbn [fst]; try lia.
  - replace (e - ez) with 0 by lia. lia.
  - rewrite iter_xO_pow2. do 2 f_equal. lia.
Qed.

(** What canonicity says of a mantissa and its exponent. *)
Lemma bounded_inv (m : positive) (e : Z) :
  bounded prec emax m e = true ->
  emin prec emax <= e /\ Zpos m < 2 ^ 53 /\ (emin prec emax < e -> 2 ^ 52 <= Zpos m).
Proof.
  unfold bounded, canonical_mantissa, fexp, emin, prec, emax.
  intros [Hc _]%andb_prop. apply Z.eqb_eq in Hc.
  pose proof (digits2_pos_bounds m) as [Hlo Hhi].
  set (d := Zpos (digits2_pos m)) in *.
  split; [lia|]. split.
  - eapply Z.lt_le_trans; [apply Hhi|]. apply Z.pow_le_mono_r; lia.
  - intros He. assert (d = 53) as Hd by lia. rewrite Hd in Hlo. exact Hlo.
Qed.

Lemma bounded_lt_exp (mx my : positive) (ex ey : Z) :
  bounded prec emax mx ex = true -> bounded prec emax my ey = true ->
  ex < ey -> Zpos mx < Zpos my * 2 ^ (ey - ex).
Proof.
  intros (Hex & Hmx & _)%bounded_inv (_ & _ & Hmy)%bounded_inv Hlt.
  specialize (Hmy ltac:(lia)).
  assert (2 ^ 1 <= 2 ^ (ey - ex)) as Hp by (apply Z.pow_le_mono_r; lia).
  change (2 ^ 1) with 2 in Hp. change (2 ^ 53) with (2 ^ 52 * 2) in Hmx. nia.
Qed.

Lemma sort_sign_has_sign (s : bool) (x : number) :
  has_sign s x -> sort_sign x = if s then Lt else Gt.
Proof. destruct x as [| | |s' m e]; cbn; try done; intros ->; by destruct s. Qed.

Lemma sort_sign_normalize (d e : Z) :
  emin prec emax <= e ->
  sort_sign (binary_normalize prec emax d e false) = (d ?= 0).
Proof.
  intros He. destruct d as [|d|d]; cbn [binary_normalize].
  - reflexivity.
  - by rewrite (sort_sign_has_sign false) by by apply binary_round_sign.
  - by rewrite (sort_sign_has_sign true) by by apply binary_round_sign.
Qed.

Lemma sort_sign_sub (x y : number) :
  num_valid x = true -> num_valid y = true ->
  is_nan x = false -> is_nan y = false ->
  sort_sign (num_sub x y) = num_compare x y.
Proof.
  destruct x as [sx|sx| |sx mx ex], y as [sy|sy| |sy my ey]; try done;
    try (by destruct sx, sy); try (by destruct sx); try (by destruct sy).
  cbn [num_valid valid_binary is_nan]. intros Hx Hy _ _.
  unfold num_sub, SFsub. cbn zeta.
  pose proof (bounded_inv _ _ Hx) as (Hex & _ & _).
  pose proof (bounded_inv _ _ Hy) as (Hey & _ & _).
  rewrite sort_sign_normalize by lia.
  rewrite !shl_align_value by lia.
  unfold num_compare, SFcompare. cbn [default].
  destruct (Z.compare_spec ex ey) as [Heq|Hlt|Hgt].
  - subst ey. rewrite Z.min_id, Z.sub_diag. change (2 ^ 0) with 1. rewrite !Z.mul_1_r.
    change (Pos.compare_cont Eq mx my) with (Pos.compare mx my).
    rewrite Pos2Z.inj_compare.
    destruct (Z.compare_spec (Zpos mx) (Zpos my)), sx, sy; cbn [cond_Zopp CompOpp];
      first [apply Z.compare_eq_iff | apply Z.compare_lt_iff | apply Z.compare_gt_iff]; lia.
  - pose proof (bounded_lt_exp _ _ _ _ Hx Hy Hlt) as Hv.
    rewrite Z.min_l, Z.sub_diag by lia. change (2 ^ 0) with 1. rewrite Z.mul_1_r.
    destruct sx, sy; cbn [cond_Zopp];
      first [apply Z.compare_lt_iff | apply Z.compare_gt_iff]; lia.
  - pose proof (bounded_lt_exp _ _ _ _ Hy Hx Hgt) as Hv.
    rewrite Z.min_r, Z.sub_diag by lia. change (2 ^ 0) with 1. rewrite Z.mul_1_r.
    destruct sx, sy; cbn [cond_Zopp];
      first [apply Z.compare_lt_iff | apply Z.compare_gt_iff]; lia.
Qed.

(** *** The order of numbers *)

Lemma SFcompare_key (x y : number) :
  is_nan x = false -> is_nan y = false ->
  SFcompare x y = Some (key_compare (num_key x) (num_key y)).
Proof.
  destruct x as [sx|sx| |sx mx ex], y as [sy|sy| |sy my ey]; try done; intros _ _;
    try (by destruct sx); try (by destruct sy); try (by destruct sx, sy).
  cbn [SFcompare]. change (Pos.compare_cont Eq mx my) with (Pos.compare mx my).
  rewrite Pos2Z.inj_compare.
  destruct sx, sy; unfold key_compare; cbn [num_key fst snd]; try done.
  - rewrite !Z.compare_opp.
    destruct (Z.compare_spec ex ey), (Z.compare_spec ey ex); try lia; try done.
    destruct (Z.compare_spec (Zpos mx) (Zpos my)), (Z.compare_spec (Zpos my) (Zpos mx));
      try lia; done.
Qed.

Lemma key_compare_le_trans (a b c : Z * (Z * Z)) :
  key_compare a b <> Gt -> key_compare b c <> Gt -> key_compare a c <> Gt.
Proof.
  destruct a as [a1 [a2 a3]], b as [b1 [b2 b3]], c as [c1 [c2 c3]].
  unfold key_compare; cbn [fst snd].
  destruct (Z.compare_spec a1 b1), (Z.compare_spec b1 c1), (Z.compare_spec a1 c1);
    try lia; try done;
  destruct (Z.compare_spec a2 b2), (Z.compare_spec b2 c2), (Z.compare_spec a2 c2);
    try lia; try done;
  destruct (Z.compare_spec a3 b3), (Z.compare_spec b3 c3), (Z.compare_spec a3 c3);
    try lia; done.
Qed.

Lemma key_compare_antisym (a b : Z * (Z * Z)) :
  key_compare b a = CompOpp (key_compare a b).
Proof.
  destruct a as [a1 [a2 a3]], b as [b1 [b2 b3]]. unfold key_compare; cbn [fst snd].
  rewrite (Z.compare_antisym a1 b1), (Z.compare_antisym a2 b2), (Z.compare_antisym a3 b3).
  by destruct (a1 ?= b1), (a2 ?= b2), (a3 ?= b3).
Qed.

Lemma num_leb_key (x y : number) :
  is_nan x = false -> is_nan y = false ->
  num_leb x y = true <-> key_compare (num_key x) (num_key y) <> Gt.
Proof.
  intros Hx Hy. unfold num_leb, SFleb. rewrite SFcompare_key by done.
  destruct (key_compare _ _); split; done.
Qed.

Lemma num_leb_trans (x y z : number) :
  is_nan x = false -> is_nan y = false -> is_nan z = false ->
  num_leb x y = true -> num_leb y z = true -> num_leb x z = true.
Proof.
  intros Hx Hy Hz. rewrite !num_leb_key by done. apply key_compare_le_trans.
Qed.

Lemma num_compare_not_Gt (x y : number) :
  is_nan x = false -> is_nan y = false ->
  num_compare x y <> Gt -> num_leb x y = true.
Proof.
  intros Hx Hy. rewrite num_leb_key by done. unfold num_compare.
  by rewrite SFcompare_key by done.
Qed.

Lemma num_compare_Gt (x y : number) :
  is_nan x = false -> is_nan y = false ->
  num_compare x y = Gt -> num_leb y x = true.
Proof.
  intros Hx Hy. rewrite num_leb_key by done. unfold num_compare.
  rewrite SFcompare_key by done. cbn. intros H.
  rewrite (key_compare_antisym (num_key x)), H. done.
Qed.

(** ** Doubles: rounding gives well-formed numbers *)

Lemma Zdigits2_unique (m d : Z) :
  0 < m -> 2 ^ (d - 1) <= m < 2 ^ d -> Zdigits2 m = d.
Proof.
  intros Hm [Hlo Hhi]. destruct m as [|m|m]; try lia. cbn [Zdigits2].
  pose proof (digits2_pos_bounds m) as [Hlo' Hhi'].
  set (d0 := Zpos (digits2_pos m)) in *.
  assert (0 < d) as Hd.
  { destruct (Z.lt_trichotomy d 0) as [H|[H|H]]; [|subst d; cbn in Hhi; lia|done].
    rewrite Z.pow_neg_r in Hhi by done. lia. }
  destruct (Z.lt_trichotomy d0 d) as [H|[H|H]]; [|done|].
  - assert (2 ^ d0 <= 2 ^ (d - 1)) by (apply Z.pow_le_mono_r; lia). lia.
  - assert (2 ^ d <= 2 ^ (d0 - 1)) by (apply Z.pow_le_mono_r; lia). lia.
Qed.

Lemma Zdigits2_bounds (m : Z) :
  0 < m -> 0 < Zdigits2 m /\ 2 ^ (Zdigits2 m - 1) <= m < 2 ^ Zdigits2 m.
Proof.
  intros Hm. destruct m as [|m|m]; try lia. cbn [Zdigits2].
  split; [lia|apply digits2_pos_bounds].
Qed.

Lemma Zdigits2_mono (m m' : Z) : 0 < m <= m' -> Zdigits2 m <= Zdigits2 m'.
Proof.
  intros [Hm Hle].
  destruct (Zdigits2_bounds m) as (Hd & Hlo & _); [lia|].
  destruct (Zdigits2_bounds m') as (Hd' & _ & Hhi); [lia|].
  destruct (Z.le_gt_cases (Zdigits2 m) (Zdigits2 m')) as [|H]; [done|].
  assert (2 ^ Zdigits2 m' <= 2 ^ (Zdigits2 m - 1)) by (apply Z.pow_le_mono_r; lia). lia.
Qed.

Lemma Zdigits2_div_pow2 (m n : Z) :
  0 <= n -> 0 < m / 2 ^ n -> Zdigits2 (m / 2 ^ n) = Zdigits2 m - n.
Proof.
  intros Hn Hq.
  assert (0 < 2 ^ n) as Hp by (apply Z.pow_pos_nonneg; lia).
  assert (0 < m) as Hm.
  { destruct (Z.le_gt_cases m 0) as [H|H]; [|done].
    assert (m / 2 ^ n <= 0) by (apply Z.div_le_upper_bound; lia). lia. }
  destruct (Zdigits2_bounds m Hm) as (Hd & Hlo & Hhi).
  set (d := Zdigits2 m) in *.
  assert (n < d) as Hnd.
  { destruct (Z.le_gt_cases d n) as [H|H]; [|lia].
    assert (2 ^ d <= 2 ^ n) by (apply Z.pow_le_mono_r; lia).
    rewrite Z.div_small in Hq by lia. lia. }
  apply Zdigits2_unique; [done|]. split.
  - apply Z.div_le_lower_bound; [done|].
    rewrite <- Z.pow_add_r by lia. replace (n + (d - n - 1)) with (d - 1) by lia. done.
  - apply Z.div_lt_upper_bound; [done|].
    rewrite <- Z.pow_add_r by lia. replace (n + (d - n)) with d by lia. done.
Qed.

Lemma Zdigits2_mul_pow2 (m n : Z) :
  0 < m -> 0 <= n -> Zdigits2 (m * 2 ^ n) = Zdigits2 m + n.
Proof.
  intros Hm Hn.
  assert (0 < 2 ^ n) as Hp by (apply Z.pow_pos_nonneg; lia).
  destruct (Zdigits2_bounds m Hm) as (Hd & Hlo & Hhi).
  apply Zdigits2_unique; [nia|].
  replace (Zdigits2 m + n - 1) with (Zdigits2 m - 1 + n) by lia.
  rewrite !Z.pow_add_r by lia. nia.
Qed.

Lemma fexp_mono (a b : Z) : a <= b -> fexp prec emax a <= fexp prec emax b.
Proof. unfold fexp. lia. Qed.

(** What [shr_fexp] computes when it has to shift. *)
Lemma shr_fexp_spec (m e : Z) (l : location) :
  0 <= m -> e <= fexp prec emax (Zdigits2 m + e) ->
  shr_m (shr_fexp prec emax m e l).1 = m / 2 ^ (fexp prec emax (Zdigits2 m + e) - e) /\
  (shr_fexp prec emax m e l).2 = fexp prec emax (Zdigits2 m + e).
Proof.
  intros Hm He. unfold shr_fexp, shr.
  assert (Hrec : shr_m (shr_record_of_loc m l) = m) by (by destruct l as [|[]]).
  destruct (fexp prec emax (Zdigits2 m + e) - e) as [|n|n] eqn:Hn; cbn [fst snd]; try lia.
  - rewrite Hrec, Z.div_1_r. lia.
  - rewrite iter_shr_1_m by (rewrite Hrec; lia). rewrite Hrec. lia.
Qed.

Lemma binary_round_aux_valid (s : bool) (m e : Z) (l : location) :
  0 <= m -> e <= fexp prec emax (Zdigits2 m + e) ->
  num_valid (binary_round_aux prec emax s m e l) = true.
Proof.
  intros Hm He. unfold binary_round_aux.
  destruct (shr_fexp_spec m e l Hm He) as [Hm1 He1].
  destruct (shr_fexp prec emax m e l) as [mrs1 e1]. cbn [fst snd] in *.
  set (n1 := fexp prec emax (Zdigits2 m + e) - e) in *.
  assert (0 <= n1) as Hn1 by (unfold n1; lia).
  assert (0 < 2 ^ n1) as Hp1 by (apply Z.pow_pos_nonneg; lia).
  assert (0 <= shr_m mrs1) as Hm1pos by (rewrite Hm1; apply Z.div_pos; lia).
  assert (0 < shr_m mrs1 -> fexp prec emax (Zdigits2 (shr_m mrs1) + e1) = e1) as Ha.
  { intros H. rewrite Hm1 in *. rewrite Zdigits2_div_pow2 by (done || lia).
    replace (Zdigits2 m - n1 + e1) with (Zdigits2 m + e) by (unfold n1; lia).
    by symmetry. }
  assert (shr_m mrs1 = 0 -> e1 = emin prec emax) as Hb.
  { intros H. rewrite Hm1 in H. subst e1.
    destruct (Z.eq_dec m 0) as [->|Hne].
    - cbn [Zdigits2] in *. unfold fexp, emin, prec, emax in *. lia.
    - destruct (Zdigits2_bounds m) as (Hd & Hlo & _); [lia|].
      assert (m < 2 ^ n1) as Hlt.
      { destruct (Z.lt_ge_cases m (2 ^ n1)) as [|Hge]; [done|].
        assert (1 <= m / 2 ^ n1) by (apply Z.div_le_lower_bound; lia). lia. }
      assert (Zdigits2 m - 1 < n1) as Hdn.
      { destruct (Z.lt_ge_cases (Zdigits2 m - 1) n1) as [|Hge]; [done|].
        assert (2 ^ n1 <= 2 ^ (Zdigits2 m - 1)) by (apply Z.pow_le_mono_r; lia). lia. }
      unfold n1, fexp, emin, prec, emax in *. lia. }
  pose proof (round_nearest_even_ge (shr_m mrs1) (loc_of_shr_record mrs1)) as Hr.
  set (m1 := round_nearest_even (shr_m mrs1) (loc_of_shr_record mrs1)) in *.
  assert (e1 <= fexp prec emax (Zdigits2 m1 + e1)) as He2.
  { destruct (Z.eq_dec (shr_m mrs1) 0) as [H0|H0].
    - rewrite (Hb H0). unfold fexp, emin, prec, emax. lia.
    - rewrite <- Ha at 1 by lia. apply fexp_mono.
      pose proof (Zdigits2_mono (shr_m mrs1) m1). lia. }
  destruct (shr_fexp_spec m1 e1 loc_Exact ltac:(lia) He2) as [Hm2 He2'].
  destruct (shr_fexp prec emax m1 e1 loc_Exact) as [mrs2 e2]. cbn [fst snd] in *.
  destruct (shr_m mrs2) as [|m2|m2] eqn:Hm2'; try done.
  destruct (e2 <=? emax - prec) eqn:Hle; [|done].
  cbn [num_valid valid_binary]. unfold bounded, canonical_mantissa.
  rewrite Hle, andb_true_r. apply Z.eqb_eq.
  change (Zpos (digits2_pos m2)) with (Zdigits2 (Zpos m2)).
  assert (0 < m1 / 2 ^ (fexp prec emax (Zdigits2 m1 + e1) - e1)) as Hq by lia.
  rewrite Hm2, Zdigits2_div_pow2 by (done || lia).
  replace (Zdigits2 m1 - (fexp prec emax (Zdigits2 m1 + e1) - e1) + e2)
    with (Zdigits2 m1 + e1) by lia.
  by symmetry.
Qed.

Lemma binary_round_valid (s : bool) (m : positive) (e : Z) :
  num_valid (binary_round prec emax s m e) = true.
Proof.
  unfold binary_round.
  change (Zpos (digits2_pos m)) with (Zdigits2 (Zpos m)).
  set (f := fexp prec emax (Zdigits2 (Zpos m) + e)).
  destruct (shl_align m e f) as [mz ez] eqn:Hal.
  apply binary_round_aux_valid; [lia|].
  destruct (Z.lt_ge_cases f e) as [Hlt|Hge].
  - pose proof (shl_align_value m e f ltac:(lia)) as Hv. rewrite Hal in Hv. cbn [fst] in Hv.
    assert (ez = f) as ->.
    { unfold shl_align in Hal. destruct (f - e) eqn:Hd; inversion Hal; lia. }
    rewrite Hv, Zdigits2_mul_pow2 by lia.
    replace (Zdigits2 (Zpos m) + (e - f) + f) with (Zdigits2 (Zpos m) + e) by lia. done.
  - unfold shl_align in Hal. destruct (f - e) eqn:Hd; inversion Hal; subst; try lia; done.
Qed.

Lemma num_of_Z_valid (z : Z) : num_valid (num_of_Z z) = true.
Proof.
  unfold num_of_Z, binary_normalize. destruct z; [done|apply binary_round_valid..].
Qed.

Lemma binary_normalize_valid (m e : Z) (sz : bool) :
  num_valid (binary_normalize prec emax m e sz) = true.
Proof. unfold binary_normalize. destruct m; [done|apply binary_round_valid..]. Qed.

(** The quotient that [SFdiv_core_binary] hands to the rounding has
    enough digits for its exponent. *)
Lemma SFdiv_core_binary_spec (n d : Z) :
  0 < n -> 0 < d ->
  let '(q, e, _) := SFdiv_core_binary prec emax n 0 d 0 in
  0 <= q /\ e <= fexp prec emax (Zdigits2 q + e).
Proof.
  intros Hn Hd. unfold SFdiv_core_binary.
  rewrite !Z.add_0_r, Z.sub_0_r. cbn zeta.
  set (f := fexp prec emax (Zdigits2 n - Zdigits2 d)).
  set (e := Z.min f 0).
  set (m := match 0 - e with Z.pos _ => Z.shiftl n (0 - e) | 0 => n | Z.neg _ => 0 end).
  assert (m = n * 2 ^ (- e)) as Hm.
  { unfold m. destruct (0 - e) eqn:He; try lia.
    - replace (- e) with 0 by lia. lia.
    - rewrite Z.shiftl_mul_pow2 by lia. do 2 f_equal. lia. }
  assert (0 < 2 ^ (- e)) as Hp by (apply Z.pow_pos_nonneg; lia).
  assert (0 < m) as Hmpos by nia.
  assert (Zdigits2 m = Zdigits2 n - e) as Hdm.
  { rewrite Hm, Zdigits2_mul_pow2 by lia. lia. }
  pose proof (Z.div_eucl_eq m d ltac:(lia)) as Heq.
  pose proof (Z.mod_pos_bound m d Hd) as Hr.
  unfold Z.modulo in Hr.
  destruct (Z.div_eucl m d) as [q r].
  assert (0 <= q) as Hq by nia.
  split; [done|].
  destruct (Zdigits2_bounds m Hmpos) as (_ & Hmlo & _).
  destruct (Zdigits2_bounds d Hd) as (Hdd & _ & Hdhi).
  destruct (Z.eq_dec q 0) as [->|Hq0].
  - cbn [Zdigits2]. 
    assert (Zdigits2 m <= Zdigits2 d) as Hle by (apply Zdigits2_mono; lia).
    unfold e, f, fexp, emin, prec, emax in *. lia.
  - destruct (Zdigits2_bounds q ltac:(lia)) as (Hdq & _ & Hqhi).
    assert (Zdigits2 m - 1 < Zdigits2 q + Zdigits2 d) as Hdig.
    { destruct (Z.lt_ge_cases (Zdigits2 m - 1) (Zdigits2 q + Zdigits2 d)) as [|Hge]; [done|].
      assert (2 ^ (Zdigits2 q + Zdigits2 d) <= 2 ^ (Zdigits2 m - 1))
        by (apply Z.pow_le_mono_r; lia).
      rewrite Z.pow_add_r in * by lia. nia. }
    etransitivity; [apply Z.le_min_l|]. apply fexp_mono. lia.
Qed.

Lemma round_decimal_valid (s : bool) (n e10 : Z) :
  0 < n -> num_valid (round_decimal s n e10) = true.
Proof.
  intros Hn. unfold round_decimal.
  destruct (Z.leb_spec 0 e10) as [|Hneg]; [apply binary_normalize_valid|].
  assert (0 < 10 ^ (- e10)) as Hd by (apply Z.pow_pos_nonneg; lia).
  pose proof (SFdiv_core_binary_spec n (10 ^ (- e10)) Hn Hd) as Hs.
  destruct (SFdiv_core_binary prec emax n 0 (10 ^ (- e10)) 0) as [[q e] l].
  destruct Hs. by apply binary_round_aux_valid.
Qed.

Lemma digit_of_nonneg (radix c v : Z) : digit_of radix c = Some v -> 0 <= v.
Proof.
  unfold digit_of. intros H.
  destruct ((48 <=? c) && (c <=? 57)) eqn:H1;
    [|destruct ((97 <=? c) && (c <=? 102)) eqn:H2;
      [|destruct ((65 <=? c) && (c <=? 70)) eqn:H3]];
    match type of H with (if ?b then _ else _) = _ => destruct b end;
    inversion H; subst; lia.
Qed.

Lemma span_digits_nonneg (radix : Z) (l : list Z) :
  Forall (fun d => 0 <= d) (span_digits radix l).1.
Proof.
  induction l as [|c l IH]; cbn [span_digits]; [by constructor|].
  destruct (digit_of radix c) as [v|] eqn:Hv; [|by constructor].
  destruct (span_digits radix l) as [ds r]. cbn [fst] in *.
  constructor; [by eapply digit_of_nonneg|done].
Qed.

Lemma fold_digits_nonneg (radix : Z) (ds : list Z) (acc : Z) :
  0 <= radix -> 0 <= acc -> Forall (fun d => 0 <= d) ds ->
  0 <= fold_left (fun acc d => acc * radix + d) ds acc.
Proof.
  intros Hr. revert acc.
  induction ds as [|d ds IH]; intros acc Hacc Hds; cbn [fold_left]; [done|].
  inversion Hds; subst. apply IH; [nia|done].
Qed.

Lemma digits_value_nonneg (radix : Z) (ds : list Z) :
  0 <= radix -> Forall (fun d => 0 <= d) ds -> 0 <= digits_value radix ds.
Proof. intros. by apply fold_digits_nonneg. Qed.

Lemma parse_fraction_nonneg (l : list Z) :
  Forall (fun d => 0 <= d) (parse_fraction l).1.
Proof.
  unfold parse_fraction. destruct l as [|c l]; [by constructor|].
  destruct (c =? 46); [apply span_digits_nonneg|by constructor].
Qed.

Lemma parse_unsigned_decimal_valid (s : bool) (l : list Z) :
  num_valid (parse_unsigned_decimal s l) = true.
Proof.
  unfold parse_unsigned_decimal.
  pose proof (span_digits_nonneg 10 l) as Hip.
  destruct (span_digits 10 l) as [ip l1]. cbn [fst] in Hip.
  pose proof (parse_fraction_nonneg l1) as Hfp.
  destruct (parse_fraction l1) as [fp l2]. cbn [fst] in Hfp.
  assert (Forall (fun d => 0 <= d) (ip ++ fp)) as Hds by by apply Forall_app.
  destruct (ip ++ fp) as [|d ds] eqn:Heq; [done|].
  destruct (parse_exponent l2) as [e|]; [|done].
  pose proof (digits_value_nonneg 10 (d :: ds) ltac:(lia) Hds) as Hn.
  destruct (Z.eqb_spec (digits_value 10 (d :: ds)) 0); [done|].
  apply round_decimal_valid. lia.
Qed.

Lemma parse_decimal_valid (l : list Z) : num_valid (parse_decimal l) = true.
Proof.
  unfold parse_decimal. destruct (parse_sign l) as [s l1].
  destruct (decide _); [done|apply parse_unsigned_decimal_valid].
Qed.

Lemma parse_radix_valid (radix : Z) (l : list Z) : num_valid (parse_radix radix l) = true.
Proof.
  unfold parse_radix. destruct (span_digits radix l) as [[|d ds] [|c rest]]; try done.
  apply num_of_Z_valid.
Qed.

Lemma StringToNumber_valid (str : string) : num_valid (StringToNumber str) = true.
Proof.
  unfold StringToNumber. cbn zeta. destruct (trim (code_points str)) as [|c l]; [done|].
  destruct (radix_prefix (c :: l)) as [[radix l']|];
    [apply parse_radix_valid|apply parse_decimal_valid].
Qed.

Lemma ToNumber_valid (v : val) :
  match v with VNum n => num_valid n = true | _ => True end ->
  num_valid (ToNumber v) = true.
Proof. destruct v; try done. intros _. apply StringToNumber_valid. Qed.

(** *** Sorting by a rank *)

Section sorting.
Context {A : Type} (comparefn : A -> A -> number).

Lemma sort_insert_perm (x : A) (l : list A) : sort_insert comparefn x l ≡ₚ x :: l.
Proof.
  induction l as [|y l IH]; cbn [sort_insert]; [done|].
  destruct (sort_sign _); try done. rewrite IH. apply Permutation_swap.
Qed.

Lemma array_sort_cons (x : A) (l : list A) :
  array_sort comparefn (x :: l) = sort_insert comparefn x (array_sort comparefn l).
Proof. reflexivity. Qed.

Lemma array_sort_perm (l : list A) : array_sort comparefn l ≡ₚ l.
Proof.
  induction l as [|x l IH]; [done|].
  rewrite array_sort_cons, sort_insert_perm. by constructor.
Qed.

Lemma array_sort_length (l : list A) : length (array_sort comparefn l) = length l.
Proof. apply Permutation_length, array_sort_perm. Qed.

(** The comparator of the ranked routes: [(a, b) => rank(b) - rank(a)]. *)
Context (rank : A -> number).
Hypothesis comparefn_rank : forall a b, comparefn a b = num_sub (rank b) (rank a).

Lemma descending_trans (a b c : A) :
  comparable (rank a) -> comparable (rank b) -> comparable (rank c) ->
  descending rank a b -> descending rank b c -> descending rank a c.
Proof.
  intros [_ Ha] [_ Hb] [_ Hc] Hab Hbc. unfold descending in *.
  by apply (num_leb_trans _ (rank b)).
Qed.

Lemma sort_insert_sorted (x : A) (l : list A) :
  comparable (rank x) -> Forall (fun a => comparable (rank a)) l ->
  StronglySorted (descending rank) l ->
  StronglySorted (descending rank) (sort_insert comparefn x l).
Proof.
  intros Hx Hl Hs. induction Hs as [|y l Hs IH Hy]; cbn [sort_insert].
  - repeat constructor.
  - inversion Hl as [|? ? Hry Hl']; subst.
    pose proof Hx as [Hvx Hnx]. pose proof Hry as [Hvy Hny].
    rewrite comparefn_rank, sort_sign_sub by done.
    assert (num_compare (rank y) (rank x) <> Gt ->
            StronglySorted (descending rank) (x :: y :: l)) as Hkeep.
    { intros Hc.
      assert (descending rank x y) as Hxy by by apply num_compare_not_Gt.
      constructor; [by constructor|]. constructor; [done|].
      rewrite Forall_forall in Hy, Hl' |- *. intros z Hz.
      apply (descending_trans x y z); auto. }
    destruct (num_compare (rank y) (rank x)) eqn:Hc; [by apply Hkeep..|].
    constructor; [by apply IH|].
    rewrite sort_insert_perm. constructor; [|done].
    by apply num_compare_Gt.
Qed.

Lemma array_sort_sorted (l : list A) :
  Forall (fun a => comparable (rank a)) l ->
  StronglySorted (descending rank) (array_sort comparefn l).
Proof.
  induction 1 as [|x l Hx Hl IH]; [constructor|].
  rewrite array_sort_cons. apply sort_insert_sorted; [done| |done].
  by rewrite array_sort_perm.
Qed.
End sorting.

(** *** slice *)

Lemma clamp_index_bounds (len : Z) (rel : integral) :
  0 <= len -> 0 <= clamp_index len rel <= len.
Proof. destruct rel as [|z|]; cbn; try lia. destruct (Z.ltb_spec z 0); lia. Qed.

Lemma array_slice_from_0 {A : Type} (l : list A) (e : number) :
  array_slice l (num_of_Z 0) e =
  take (Z.to_nat (clamp_index (Z.of_nat (length l)) (ToIntegerOrInfinity e))) l.
Proof.
  unfold array_slice. cbn [num_of_Z binary_normalize ToIntegerOrInfinity clamp_index].
  change (0 <? 0) with false. cbn match.
  pose proof (clamp_index_bounds (Z.of_nat (length l)) (ToIntegerOrInfinity e)).
  rewrite Z.min_l, Z.sub_0_r, Z.max_l by lia. done.
Qed.

(** *** Property assignment *)

Lemma props_set_prop (o : object) (k k' : string) (v : val) :
  k' <> "__proto__" ->
  props (set_prop o k v) !! k' = if decide (k = k') then Some v else props o !! k'.
Proof.
  intros Hk'. unfold set_prop.
  destruct (props o !! k) eqn:Hk, (proto o); cbn [props];
    try (rewrite lookup_insert; by repeat case_decide).
  destruct (decide (k = "__proto__")) as [->|Hk0].
  - rewrite decide_False by done. by destruct v.
  - cbn [props]. rewrite lookup_insert. by repeat case_decide.
Qed.

Lemma set_prop_valid (o : object) (k : string) (v : val) :
  object_valid o -> val_valid v -> object_valid (set_prop o k v).
Proof.
  intros Ho Hv k' v'. unfold set_prop.
  assert (<[k:=v]> (props o) !! k' = Some v' -> val_valid v') as Hins.
  { rewrite lookup_insert. case_decide; [by intros [= <-]|apply Ho]. }
  destruct (props o !! k), (proto o); cbn [props]; try done.
  destruct (decide _); [|done]. destruct v; apply Ho.
Qed.

Section forEach.
Context (f : nat -> val).

Abbreviation assign := (fun (obj : object) (h : Header) (i : nat) => set_prop obj (header_key h) (f i)).

Lemma forEach_from_other (hs : list Header) (n : nat) (o : object) (k : string) :
  k <> "__proto__" ->
  (forall h, h ∈ hs -> header_key h <> k) ->
  props (forEach_from assign n hs o) !! k = props o !! k.
Proof.
  intros Hk. revert n o. induction hs as [|h hs IH]; intros n o Hhs; cbn [forEach_from]; [done|].
  rewrite IH by (intros h' Hh'; apply Hhs; by right).
  rewrite props_set_prop by done. rewrite decide_False; [done|]. apply Hhs. by left.
Qed.

Lemma forEach_from_last (hs : list Header) (n : nat) (o : object) (i : nat) (h : Header) :
  header_key h <> "__proto__" ->
  hs !! i = Some h ->
  (forall j h', (i < j)%nat -> hs !! j = Some h' -> header_key h' <> header_key h) ->
  props (forEach_from assign n hs o) !! header_key h = Some (f (n + i)%nat).
Proof.
  intros Hk. revert n o i. induction hs as [|h0 hs IH]; intros n o i Hi Hlater; [done|].
  cbn [forEach_from]. destruct i as [|i].
  - injection Hi as ->. rewrite forEach_from_other; [|done|].
    + rewrite props_set_prop, decide_True by done. do 2 f_equal. lia.
    + intros h' [j Hj]%list_elem_of_lookup. apply (Hlater (S j)); [lia|done].
  - rewrite (IH (S n) _ i); [do 2 f_equal; lia|done|].
    intros j h' Hj Hh'. apply (Hlater (S j)); [lia|done].
Qed.

Lemma forEach_from_valid (hs : list Header) (n : nat) (o : object) :
  (forall i, val_valid (f i)) -> object_valid o -> object_valid (forEach_from assign n hs o).
Proof.
  intros Hf. revert n o. induction hs as [|h hs IH]; intros n o Ho; cbn [forEach_from]; [done|].
  apply IH. by apply set_prop_valid.
Qed.
End forEach.

Lemma dimension_value_valid (row : Row) (i : nat) : val_valid (dimension_value row i).
Proof. unfold dimension_value. by destruct (value_at _ _). Qed.

Lemma metric_value_valid (row : Row) (i : nat) : val_valid (metric_value row i).
Proof.
  unfold metric_value. destruct (value_at _ _); cbn; [apply StringToNumber_valid|done].
Qed.

Lemma flat_row_valid (dhs mhs : list Header) (row : Row) : object_valid (flat_row dhs mhs row).
Proof.
  unfold flat_row, forEach.
  apply forEach_from_valid; [apply metric_value_valid|].
  apply forEach_from_valid; [apply dimension_value_valid|].
  intros k v. unfold empty_object. cbn. by rewrite lookup_empty.
Qed.

Lemma map_throwing_Normal {A B : Type} (f : A -> completion B) (g : A -> B) (l : list A) :
  (forall a, f a = Normal (g a)) -> map_throwing f l = Normal (map g l).
Proof.
  intros Hf. induction l as [|a l IH]; [done|].
  cbn [map_throwing map]. by rewrite Hf, IH.
Qed.

Lemma row_to_object_defined (dhs mhs : list Header) (row : Row) :
  row_to_object (defined dhs) (defined mhs) row = Normal (flat_row dhs mhs row).
Proof. reflexivity. Qed.

Lemma rowsToObjects_defined (rows : list Row) (dhs mhs : list Header) :
  rowsToObjects (defined rows) (defined dhs) (defined mhs) = Normal (map (flat_row dhs mhs) rows).
Proof. apply map_throwing_Normal. intros row. apply row_to_object_defined. Qed.

(** Whatever the headers are, every record that is produced is one of a
    row flattened against two arrays of headers. *)
Lemma rowsToObjects_inv (rows : nullable (list Row)) (dhs mhs : nullable (list Header))
    (objs : list object) :
  rowsToObjects rows dhs mhs = Normal objs ->
  exists rows' dhs' mhs', objs = map (flat_row dhs' mhs') rows'.
Proof.
  unfold rowsToObjects. intros H.
  destruct (or_empty rows) as [| |rows']; try done.
  destruct rows' as [|row rows'].
  { cbn in H. injection H as <-. by exists [], [], []. }
  destruct (or_empty dhs) as [| |dhs'] eqn:Hd; try done.
  destruct (or_empty mhs) as [| |mhs'] eqn:Hm; try done.
  exists (row :: rows'), dhs', mhs'.
  rewrite (map_throwing_Normal _ (flat_row dhs' mhs')) in H by done. by injection H.
Qed.

Lemma rowsToObjects_valid (rows : nullable (list Row)) (dhs mhs : nullable (list Header))
    (objs : list object) :
  rowsToObjects rows dhs mhs = Normal objs -> Forall object_valid objs.
Proof.
  intros (rows' & dhs' & mhs' & ->)%rowsToObjects_inv.
  apply Forall_forall. intros o (row & -> & _)%list_elem_of_fmap. apply flat_row_valid.
Qed.

(** *** Strings *)

Lemma append_cons (x : ascii) (a b : string) : String x a +:+ b = String x (a +:+ b).
Proof. reflexivity. Qed.

Lemma append_assoc (a b c : string) : (a +:+ b) +:+ c = a +:+ (b +:+ c).
Proof. induction a as [|x a IH]; [done|]. by rewrite !append_cons, IH. Qed.

Lemma length_append (a b : string) :
  String.length (a +:+ b) = (String.length a + String.length b)%nat.
Proof. induction a as [|x a IH]; [done|]. rewrite append_cons. cbn. by rewrite IH. Qed.

Lemma string_prefix_append (n : nat) (a b : string) :
  (n <= String.length a)%nat -> string_prefix n (a +:+ b) = string_prefix n a.
Proof.
  unfold string_prefix. revert a. induction n as [|n IH]; intros a Hn.
  - destruct a; [destruct b|]; reflexivity.
  - destruct a as [|x a]; cbn in Hn; [lia|].
    rewrite append_cons. cbn. f_equal. apply IH. lia.
Qed.

Lemma length_digits_string (w : nat) (n : Z) : String.length (digits_string w n) = w.
Proof.
  revert n. induction w as [|w IH]; intros n; cbn [digits_string]; [done|].
  rewrite length_append, IH. cbn. lia.
Qed.

Lemma length_year_string (y : Z) : (4 <= String.length (year_string y))%nat.
Proof.
  unfold year_string. destruct (_ && _).
  - by rewrite length_digits_string.
  - rewrite length_append, length_digits_string. lia.
Qed.

(** *** The calendar *)

Lemma YearFromTime_spec (t : Z) :
  DayFromYear (YearFromTime t) <= Day t < DayFromYear (YearFromTime t + 1).
Proof.
  unfold YearFromTime. generalize (Day t) as d. intros d. cbn zeta.
  destruct (Z.ltb_spec d (DayFromYear (1970 + d * 400 / 146097))) as [H1|H1];
    [|destruct (Z.leb_spec (DayFromYear (1970 + d * 400 / 146097 + 1)) d) as [H2|H2]];
    unfold DayFromYear in *; Z.to_euclidean_division_equations; lia.
Qed.

Lemma DaysInYear_spec (y : Z) : DayFromYear (y + 1) - DayFromYear y = DaysInYear y.
Proof.
  unfold DaysInYear, is_leap_year, DayFromYear.
  destruct (Z.eqb_spec (y mod 4) 0), (Z.eqb_spec (y mod 100) 0), (Z.eqb_spec (y mod 400) 0);
    cbn [andb orb negb]; Z.to_euclidean_division_equations; lia.
Qed.

Lemma DayWithinYear_bounds (t : Z) :
  0 <= DayWithinYear t < DaysInYear (YearFromTime t).
Proof.
  unfold DayWithinYear. pose proof (YearFromTime_spec t).
  pose proof (DaysInYear_spec (YearFromTime t)). lia.
Qed.

Lemma MonthFromTime_bounds (t : Z) : 0 <= MonthFromTime t <= 11.
Proof.
  unfold MonthFromTime. cbn zeta.
  repeat match goal with |- context [if ?b then _ else _] => destruct b end; lia.
Qed.

Lemma DateFromTime_bounds (t : Z) : 1 <= DateFromTime t <= 31.
Proof.
  pose proof (DayWithinYear_bounds t) as Hd.
  unfold DateFromTime, MonthFromTime, InLeapYear, DaysInYear in *. cbn zeta.
  destruct (is_leap_year (YearFromTime t));
    repeat match goal with
           | |- context [if ?a <? ?b then _ else _] => destruct (Z.ltb_spec a b)
           end; cbn [month_start]; lia.
Qed.

(** Setting the day of the month moves the day number by as much. *)
Lemma MakeDay_of_time (t dt : Z) :
  MakeDay (YearFromTime t) (MonthFromTime t) dt = Day t + (dt - DateFromTime t).
Proof.
  pose proof (MonthFromTime_bounds t) as Hm.
  unfold MakeDay. cbn zeta.
  rewrite Z.div_small, Z.mod_small, Z.add_0_r by lia.
  unfold DateFromTime, DayWithinYear, InLeapYear. lia.
Qed.

Lemma Day_MakeDate (d tm : Z) : 0 <= tm < msPerDay -> Day (MakeDate d tm) = d.
Proof.
  intros H. unfold Day, MakeDate. rewrite Z.add_comm, Z.div_add by done.
  rewrite Z.div_small by done. done.
Qed.

Lemma TimeWithinDay_bounds (t : Z) : 0 <= TimeWithinDay t < msPerDay.
Proof. apply Z.mod_pos_bound. done. Qed.

Lemma Day_of_day (d : Z) : Day (d * msPerDay) = d.
Proof. unfold Day. by apply Z.div_mul. Qed.

(** The date fields of a time value are those of its day. *)
Lemma YearFromTime_Day (t : Z) : YearFromTime (Day t * msPerDay) = YearFromTime t.
Proof. unfold YearFromTime. by rewrite Day_of_day. Qed.

Lemma MonthFromTime_Day (t : Z) : MonthFromTime (Day t * msPerDay) = MonthFromTime t.
Proof.
  unfold MonthFromTime, DayWithinYear, InLeapYear. by rewrite YearFromTime_Day, Day_of_day.
Qed.

Lemma DateFromTime_Day (t : Z) : DateFromTime (Day t * msPerDay) = DateFromTime t.
Proof.
  unfold DateFromTime, DayWithinYear, InLeapYear.
  by rewrite MonthFromTime_Day, YearFromTime_Day, Day_of_day.
Qed.

Lemma toISO_civil_date (t : Z) : toISO (Some t) = Normal (civil_date (Day t)).
Proof.
  unfold toISO, toISOString, civil_date. cbn [mbind completion_bind]. cbn zeta.
  rewrite YearFromTime_Day, MonthFromTime_Day, DateFromTime_Day.
  f_equal.
  set (y := year_string _). set (m := digits_string 2 (_ + 1)). set (d := digits_string 2 _).
  rewrite <- (string_prefix_append 10 (y +:+ "-" +:+ m +:+ "-" +:+ d)
                ("T" +:+ digits_string 2 (HourFromTime t) +:+ ":" +:+
                 digits_string 2 (MinFromTime t) +:+ ":" +:+
                 digits_string 2 (SecFromTime t) +:+ "." +:+
                 digits_string 3 (msFromTime t) +:+ "Z")).
  - by rewrite !append_assoc.
  - assert (4 <= String.length y)%nat by apply length_year_string.
    rewrite !length_append. unfold m, d. rewrite !length_digits_string.
    change (String.length "-") with 1%nat. lia.
Qed.

Lemma DateFromTime_same_day (t t' : Z) : Day t = Day t' -> DateFromTime t = DateFromTime t'.
Proof. intros H. by rewrite <- (DateFromTime_Day t), <- (DateFromTime_Day t'), H. Qed.

Lemma time_of_day (t : Z) : t = Day t * msPerDay + TimeWithinDay t.
Proof. unfold Day, TimeWithinDay. rewrite Z.mul_comm. by apply Z.div_mod. Qed.

(** *** Reading a date string back *)

Lemma append_empty_l (s : string) : "" +:+ s = s.
Proof. reflexivity. Qed.

Lemma append_empty_r (s : string) : s +:+ "" = s.
Proof. induction s as [|x a IH]; [done|]. by rewrite append_cons, IH. Qed.

Lemma substring_0_append (a b : string) : String.substring 0 (String.length a) (a +:+ b) = a.
Proof.
  induction a as [|x a IH].
  - destruct b; reflexivity.
  - rewrite append_cons. cbn. by rewrite IH.
Qed.

Lemma substring_0_length (s : string) : String.substring 0 (String.length s) s = s.
Proof. rewrite <- (append_empty_r s) at 2. apply substring_0_append. Qed.

Lemma substring_skip_append (a b : string) (n m : nat) :
  String.substring (String.length a + n) m (a +:+ b) = String.substring n m b.
Proof. induction a as [|x a IH]; [done|]. rewrite append_cons. cbn. apply IH. Qed.

Lemma digits_parse_append (acc : Z) (a b : string) :
  digits_parse acc (a +:+ b) = digits_parse (digits_parse acc a) b.
Proof.
  revert acc. induction a as [|x a IH]; intros acc; [done|].
  rewrite append_cons. cbn [digits_parse]. apply IH.
Qed.

(** Parsing what [digits_string] printed gives the number back, up to
    the digits that were kept. *)
Lemma digits_parse_digits_string (w : nat) (acc n : Z) :
  digits_parse acc (digits_string w n) = acc * 10 ^ Z.of_nat w + n mod 10 ^ Z.of_nat w.
Proof.
  revert acc n. induction w as [|w IH]; intros acc n.
  - cbn [digits_string digits_parse]. change (10 ^ Z.of_nat 0) with 1. rewrite Z.mod_1_r. lia.
  - cbn [digits_string]. rewrite digits_parse_append, IH. cbn [digits_parse].
    pose proof (Z.mod_pos_bound n 10 ltac:(lia)) as Hdigit.
    rewrite N_ascii_embedding by lia. rewrite Z2N.id by lia.
    rewrite Nat2Z.inj_succ, Z.pow_succ_r by lia.
    assert (0 < 10 ^ Z.of_nat w) as Hpos by (apply Z.pow_pos_nonneg; lia).
    rewrite Z.rem_mul_r by lia. lia.
Qed.

Lemma iso_fields_date (y m d : Z) :
  0 <= y <= 9999 -> 0 <= m <= 99 -> 0 <= d <= 99 ->
  iso_fields (digits_string 4 y +:+ "-" +:+ digits_string 2 m +:+ "-" +:+ digits_string 2 d)
    = (y, m, d).
Proof.
  intros Hy Hm Hd. unfold iso_fields.
  pose proof (length_digits_string 4 y) as Hly.
  pose proof (length_digits_string 2 m) as Hlm.
  pose proof (length_digits_string 2 d) as Hld.
  set (sy := digits_string 4 y) in *. set (sm := digits_string 2 m) in *.
  set (sd := digits_string 2 d) in *.
  assert (String.substring 0 4 (sy +:+ "-" +:+ sm +:+ "-" +:+ sd) = sy) as ->.
  { rewrite <- Hly at 1. apply substring_0_append. }
  assert (String.substring 5 2 (sy +:+ "-" +:+ sm +:+ "-" +:+ sd) = sm) as ->.
  { change 5%nat with (4 + 1)%nat. rewrite <- Hly at 1. rewrite substring_skip_append.
    rewrite append_cons, append_empty_l. cbn [String.substring].
    rewrite <- Hlm at 1. apply substring_0_append. }
  assert (String.substring 8 2 (sy +:+ "-" +:+ sm +:+ "-" +:+ sd) = sd) as ->.
  { change 8%nat with (4 + 4)%nat. rewrite <- Hly at 1. rewrite substring_skip_append.
    rewrite append_cons, append_empty_l. cbn [String.substring].
    change 3%nat with (2 + 1)%nat. rewrite <- Hlm at 1. rewrite substring_skip_append.
    rewrite append_cons, append_empty_l. cbn [String.substring].
    rewrite <- Hld. apply substring_0_length. }
  unfold sy, sm, sd. rewrite !digits_parse_digits_string.
  change (10 ^ Z.of_nat 4) with 10000. change (10 ^ Z.of_nat 2) with 100.
  rewrite !Z.mod_small by lia. done.
Qed.

Lemma civil_date_format (t : Z) :
  0 <= YearFromTime t <= 9999 ->
  civil_date (Day t) =
    digits_string 4 (YearFromTime t) +:+ "-" +:+ digits_string 2 (MonthFromTime t + 1)
      +:+ "-" +:+ digits_string 2 (DateFromTime t).
Proof.
  intros Hy. unfold civil_date. cbn zeta.
  rewrite YearFromTime_Day, MonthFromTime_Day, DateFromTime_Day.
  unfold year_string.
  destruct (Z.leb_spec 0 (YearFromTime t)), (Z.leb_spec (YearFromTime t) 9999); try lia.
  cbn [andb]. unfold string_prefix.
  set (s := _ +:+ _).
  assert (String.length s = 10%nat) as Hlen.
  { unfold s. rewrite !length_append, !length_digits_string. reflexivity. }
  rewrite <- Hlen. apply substring_0_length.
Qed.

Lemma civil_date_read_back (t : Z) :
  0 <= YearFromTime t <= 9999 ->
  iso_fields (civil_date (Day t)) = (YearFromTime t, MonthFromTime t + 1, DateFromTime t) /\
  MakeDay (iso_fields (civil_date (Day t))).1.1 ((iso_fields (civil_date (Day t))).1.2 - 1)
    (iso_fields (civil_date (Day t))).2 = Day t.
Proof.
  intros Hy.
  pose proof (MonthFromTime_bounds t). pose proof (DateFromTime_bounds t).
  assert (iso_fields (civil_date (Day t)) = (YearFromTime t, MonthFromTime t + 1, DateFromTime t))
    as Hfields by (rewrite civil_date_format by done; apply iso_fields_date; lia).
  split; [done|]. rewrite Hfields. cbn [fst snd].
  replace (MonthFromTime t + 1 - 1) with (MonthFromTime t) by lia.
  rewrite MakeDay_of_time. lia.
Qed.

Lemma iso_day_civil_date (t : Z) :
  0 <= YearFromTime t <= 9999 -> iso_day (civil_date (Day t)) = Day t.
Proof. intros Hy. unfold iso_day. by apply civil_date_read_back. Qed.

Lemma length_civil_date (t : Z) :
  0 <= YearFromTime t <= 9999 -> String.length (civil_date (Day t)) = 10%nat.
Proof.
  intros Hy. rewrite civil_date_format by done.
  rewrite !length_append, !length_digits_string. reflexivity.
Qed.

(** *** The default window *)

(** What [setDate] leaves in [start], in any zone. *)
Lemma defaultRange_start (host : Host) (days : option Z) :
  Day (LocalTime (zone host) (now host 1%nat)) = Day (LocalTime (zone host) (now host 0%nat)) ->
  defaultRange host days =
    (s ← toISO (TimeClip (default_start host days));
     Normal {| startDate := QStr s; endDate := QStr (civil_date (Day (now host 0%nat))) |}).
Proof.
  intros Hlday. unfold defaultRange. cbn zeta.
  unfold getDate, setDate. cbn [mbind option_bind].
  rewrite MakeDay_of_time.
  rewrite (DateFromTime_same_day (LocalTime (zone host) (now host 0%nat))
             (LocalTime (zone host) (now host 1%nat))) by done.
  replace (MakeDate _ _)
    with (LocalTime (zone host) (now host 1%nat) - (default 28 days - 1) * msPerDay).
  2:{ unfold MakeDate. pose proof (time_of_day (LocalTime (zone host) (now host 1%nat))). lia. }
  fold (default_start host days).
  destruct (toISO (TimeClip _)); [|done]. by rewrite toISO_civil_date.
Qed.

(** ** The report requester and the routes *)

Lemma runReport_inv (host : Host) (ranges : list DateRange) (dims mets : list string)
    (data : ReportResult) :
  runReport host ranges (Some dims) (Some mets) = Normal data ->
  exists res,
    analyticsDataClient host (report_request host ranges dims mets) = Normal res /\
    rowsToObjects (res_rows res) (res_dimensionHeaders res) (res_metricHeaders res)
      = Normal (rows data) /\
    meta data = report_meta res.
Proof.
  unfold runReport. cbn [default from_option id].
  destruct (analyticsDataClient host _) as [res|e] eqn:Hres; [|done].
  cbn [mbind completion_bind].
  destruct (rowsToObjects _ _ _) as [objs|e] eqn:Hobjs; [|done].
  intros [= <-]. by exists res.
Qed.

Lemma runReport_resolved (host : Host) (ranges : list DateRange) (dims mets : list string)
    (res : RunReportResponse) (objs : list object) :
  analyticsDataClient host (report_request host ranges dims mets) = Normal res ->
  rowsToObjects (res_rows res) (res_dimensionHeaders res) (res_metricHeaders res) = Normal objs ->
  runReport host ranges (Some dims) (Some mets) = Normal {| meta := report_meta res; rows := objs |}.
Proof. intros Hres Hobjs. unfold runReport. cbn [default from_option id]. by rewrite Hres; cbn; rewrite Hobjs. Qed.

Lemma runReport_rejected (host : Host) (ranges : list DateRange) (dims mets : list string)
    (e : Error) :
  analyticsDataClient host (report_request host ranges dims mets) = Throw e ->
  runReport host ranges (Some dims) (Some mets) = Throw e.
Proof. intros He. unfold runReport. cbn [default from_option id]. by rewrite He. Qed.

(** Every handler resolves its range, runs its report and shapes its
    body, inside the same try and catch. *)
Lemma handler_shape (r : route) (host : Host) (query : Query) :
  handler r host query = route_reply r host query (resolve_range host query).
Proof. by destruct r. Qed.

Lemma runReport_valid (host : Host) (ranges : list DateRange) (dims mets : list string)
    (data : ReportResult) :
  runReport host ranges (Some dims) (Some mets) = Normal data ->
  Forall object_valid (rows data).
Proof. intros (res & _ & Hrows & _)%runReport_inv. by eapply rowsToObjects_valid. Qed.

Lemma rank_of_valid (k : string) (row : object) :
  object_valid row -> num_valid (rank_of k row) = true.
Proof.
  intros Hrow. apply ToNumber_valid. unfold get_prop.
  destruct (props row !! k) as [v|] eqn:Hv; [|done].
  specialize (Hrow k v Hv). by destruct v.
Qed.

Lemma resolve_range_truthy (host : Host) (query : Query) (s e : qvalue) :
  start query = Some s -> end_ query = Some e -> truthy s = true -> truthy e = true ->
  resolve_range host query = Normal {| startDate := s; endDate := e |}.
Proof. intros Hs He Hts Hte. unfold resolve_range. by rewrite Hs, He, Hts, Hte. Qed.

Lemma resolve_range_default (host : Host) (query : Query) :
  (forall s, start query = Some s -> truthy s = false) \/
  (forall e, end_ query = Some e -> truthy e = false) ->
  resolve_range host query = defaultRange host (Some 28).
Proof.
  intros H. unfold resolve_range.
  destruct (start query) as [s|], (end_ query) as [e|]; try done.
  destruct H as [H|H]; [rewrite (H s) by done|rewrite (H e) by done]; [done|].
  by rewrite andb_false_r.
Qed.

(** ** The host model on known values *)

Example StringToNumber_tenth :
  StringToNumber "0.1" = S754_finite false 7205759403792794 (-56).
Proof. by vm_compute. Qed.

Example StringToNumber_forms :
  map StringToNumber ["10"; " 1e1 "; "0xA"; "0b1010"; "0o12"; "10."; "+10.0"]
    = replicate 7 (num_of_Z 10).
Proof. by vm_compute. Qed.

Example StringToNumber_not_numeric :
  map StringToNumber ["abc"; "12px"; "1 2"; "0x"; "."; "1e"; "+0x10"; "[object Object]"; "5,6"]
    = replicate 9 NaN.
Proof. by vm_compute. Qed.

Example StringToNumber_edges :
  StringToNumber "" = pos_zero /\
  StringToNumber "-0" = neg_zero /\
  StringToNumber "-Infinity" = S754_infinity true /\
  StringToNumber "1.7976931348623157e308" = S754_finite false 9007199254740991 971 /\
  StringToNumber "1.7976931348623159e308" = Infinity /\
  StringToNumber "5e-324" = S754_finite false 1 (-1074) /\
  StringToNumber "2e-324" = pos_zero /\
  StringToNumber "9007199254740993" = num_of_Z 9007199254740992.
Proof. split_and!; by vm_compute. Qed.

Example num_sub_rounds :
  num_sub (StringToNumber "0.3") (StringToNumber "0.1") = StringToNumber "0.19999999999999998".
Proof. by vm_compute. Qed.

Example ToIntegerOrInfinity_truncates :
  map (fun s => ToIntegerOrInfinity (StringToNumber s)) ["2.9"; "-2.9"; "1e3"; "x"; "Infinity"]
    = [Finite 2; Finite (-2); Finite 1000; Finite 0; PosInfinity].
Proof. by vm_compute. Qed.

Example array_slice_ends :
  map (fun e => array_slice [1; 2; 3; 4; 5] (num_of_Z 0) (StringToNumber e))
      ["2"; "9"; "-2"; "-9"; "2.7"; "x"]
    = [[1; 2]; [1; 2; 3; 4; 5]; [1; 2; 3]; []; [1; 2]; []].
Proof. by vm_compute. Qed.

Example array_sort_stable :
  array_sort (fun a b : Z * string => num_sub (num_of_Z b.1) (num_of_Z a.1))
    [(1, "a"); (3, "b"); (1, "c"); (3, "d"); (2, "e")]
    = [(3, "b"); (3, "d"); (2, "e"); (1, "a"); (1, "c")].
Proof. by vm_compute. Qed.

Example toISOString_known :
  toISOString (Some 0) = Normal "1970-01-01T00:00:00.000Z" /\
  toISOString (Some (-1)) = Normal "1969-12-31T23:59:59.999Z" /\
  toISOString (Some 951782400000) = Normal "2000-02-29T00:00:00.000Z" /\
  toISOString (Some 1731198600000) = Normal "2024-11-10T00:30:00.000Z" /\
  toISOString (Some 8640000000000000) = Normal "+275760-09-13T00:00:00.000Z" /\
  toISOString (Some (-8640000000000000)) = Normal "-271821-04-20T00:00:00.000Z" /\
  toISOString None = Throw RangeError_invalid_time.
Proof. split_and!; by vm_compute. Qed.

Example setDate_rolls_over :
  toISOString (setDate utc_zone (Some 1709251200000) (Some 0))
    = Normal "2024-02-29T00:00:00.000Z" /\
  toISOString (setDate utc_zone (Some 1709251200000) (Some (-30)))
    = Normal "2024-01-30T00:00:00.000Z" /\
  toISOString (setDate utc_zone (Some 1709251200000) (Some 32))
    = Normal "2024-04-01T00:00:00.000Z".
Proof. split_and!; by vm_compute. Qed.

(** A time series request with both bounds given, against an upstream
    that returns three dated rows. *)
Example timeseries_end_to_end :
  exists r1 r2 r3,
    timeseries (example_host (fun _ => Normal example_timeseries))
      {| start := Some (QStr "2024-01-01"); end_ := Some (QStr "2024-01-03");
         metric := Some (QStr "sessions"); limit := None |}
    = {| status := 200;
         body := TimeseriesBody
                   {| startDate := QStr "2024-01-01"; endDate := QStr "2024-01-03" |}
                   (QStr "sessions") [r1; r2; r3];
         logged := [] |} /\
    props r1 = {[ "date" := VStr "20240101"; "sessions" := VNum (num_of_Z 5) ]} /\
    props r2 = {[ "date" := VStr "20240102"; "sessions" := VNum (num_of_Z 8) ]} /\
    props r3 = {[ "date" := VStr "20240103"; "sessions" := VNum (num_of_Z 13) ]}.
Proof.
  eexists _, _, _. split; [reflexivity|].
  split_and!; apply map_eq; intros k; by vm_compute.
Qed.

(** * The claims *)

(** ** Row Flattener *)

Lemma last_header_with_key (hs : list Header) (k : string) :
  k ∈ map header_key hs ->
  exists i h, hs !! i = Some h /\ header_key h = k /\
    forall j h', (i < j)%nat -> hs !! j = Some h' -> header_key h' <> k.
Proof.
  induction hs as [|h0 hs IH]; cbn [map]; [by intros ?%elem_of_nil|].
  intros Hin. destruct (decide (k ∈ map header_key hs)) as [Hlater|Hnone].
  - destruct (IH Hlater) as (i & h & Hi & Hk & Hlast).
    exists (S i), h. split_and!; [done..|].
    intros [|j] h' Hj Hh'; [lia|]. apply (Hlast j); [lia|done].
  - apply elem_of_cons in Hin as [->|]; [|done].
    exists 0%nat, h0. split_and!; [done..|].
    intros [|j] h' Hj Hh' Hk; [lia|]. apply Hnone. rewrite <- Hk.
    apply list_elem_of_fmap. exists h'. split; [done|]. by eapply list_elem_of_lookup_2.
Qed.

Lemma flat_row_dimension (dhs mhs : list Header) (row : Row) (i : nat) (h : Header) :
  dhs !! i = Some h ->
  header_key h <> "__proto__" ->
  (forall j h', (i < j)%nat -> dhs !! j = Some h' -> header_key h' <> header_key h) ->
  (forall h', h' ∈ mhs -> header_key h' <> header_key h) ->
  props (flat_row dhs mhs row) !! header_key h = Some (dimension_value row i).
Proof.
  intros Hi Hk Hlater Hmets. unfold flat_row, forEach.
  rewrite (forEach_from_other (metric_value row)) by done.
  by rewrite (forEach_from_last (dimension_value row) dhs 0 empty_object i h).
Qed.

Lemma flat_row_metric (dhs mhs : list Header) (row : Row) (i : nat) (h : Header) :
  mhs !! i = Some h ->
  header_key h <> "__proto__" ->
  (forall j h', (i < j)%nat -> mhs !! j = Some h' -> header_key h' <> header_key h) ->
  props (flat_row dhs mhs row) !! header_key h = Some (metric_value row i).
Proof.
  intros Hi Hk Hlater. unfold flat_row, forEach.
  by rewrite (forEach_from_last (metric_value row) mhs 0 _ i h).
Qed.

(** C1, as the code has it.  Each record of [rowsToObjects] maps the name
    of a dimension header to the row's dimension value at the header's
    index, or to null when that value is absent, and the name of a
    metric header to the number coerced from the row's metric value at
    the header's index, or to 0 when that value is absent, provided the
    name is not [__proto__] and no later header (a later header of the
    same list, or for a dimension any metric header) bears the same
    name.  There is one record per row, in order; no rows, or no row
    array at all, give no records whatever the headers are. *)
Theorem rowsToObjects_fields (rows : list Row) (dhs mhs : list Header) :
  (forall dh mh, rowsToObjects (defined []) dh mh = Normal [] /\
                 rowsToObjects undefined dh mh = Normal []) /\
  exists objs,
    rowsToObjects (defined rows) (defined dhs) (defined mhs) = Normal objs /\
    length objs = length rows /\
    forall j row, rows !! j = Some row ->
      exists obj, objs !! j = Some obj /\
        (forall i h, dhs !! i = Some h ->
           header_key h <> "__proto__" ->
           (forall i' h', (i < i')%nat -> dhs !! i' = Some h' -> header_key h' <> header_key h) ->
           (forall h', h' ∈ mhs -> header_key h' <> header_key h) ->
           props obj !! header_key h =
             Some (match value_at (dimensionValues row) i with
                   | Some s => VStr s
                   | None => VNull
                   end)) /\
        (forall i h, mhs !! i = Some h ->
           header_key h <> "__proto__" ->
           (forall i' h', (i < i')%nat -> mhs !! i' = Some h' -> header_key h' <> header_key h) ->
           props obj !! header_key h =
             Some (VNum (match value_at (metricValues row) i with
                         | Some s => StringToNumber s
                         | None => pos_zero
                         end))).
Proof.
  split; [done|].
  exists (map (flat_row dhs mhs) rows). split; [apply rowsToObjects_defined|].
  split; [apply length_map|].
  intros j row Hj. exists (flat_row dhs mhs row). split; [by rewrite list_lookup_fmap, Hj|].
  split.
  - intros i h Hi Hk Hlater Hmets. by rewrite (flat_row_dimension dhs mhs row i h).
  - intros i h Hi Hk Hlater. rewrite (flat_row_metric dhs mhs row i h) by done.
    unfold metric_value. by destruct (value_at _ _).
Qed.

(** A report with one dimension and one metric under distinct names; the
    second row has lost its metric value. *)
Lemma rowsToObjects_fields_witness :
  exists objs obj,
    rowsToObjects
      (defined [example_row ["/home"] ["5"];
                {| dimensionValues := Some (example_values ["/about"]); metricValues := None |}])
      (defined [example_header "pagePath"]) (defined [example_header "screenPageViews"])
      = Normal objs /\
    objs !! 1%nat = Some obj /\
    props obj !! "pagePath" = Some (VStr "/about") /\
    props obj !! "screenPageViews" = Some (VNum pos_zero).
Proof.
  destruct (rowsToObjects_fields
              [example_row ["/home"] ["5"];
               {| dimensionValues := Some (example_values ["/about"]); metricValues := None |}]
              [example_header "pagePath"] [example_header "screenPageViews"])
    as (_ & objs & Hobjs & _ & Hfields).
  destruct (Hfields 1%nat _ eq_refl) as (obj & Hobj & Hdim & Hmet).
  exists objs, obj. split_and!; [exact Hobjs|exact Hobj| |].
  - apply (Hdim 0%nat (example_header "pagePath") eq_refl).
    + discriminate.
    + intros [|i'] h' Hlt Hh'; [lia|discriminate].
    + intros h' ->%list_elem_of_singleton. discriminate.
  - apply (Hmet 0%nat (example_header "screenPageViews") eq_refl).
    + discriminate.
    + intros [|i'] h' Hlt Hh'; [lia|discriminate].
Defined.

(** C1 as stated fails when a dimension and a metric share a name: the
    record holds the metric's number under it, not the dimension value.
    It also fails for a header named [__proto__]: assigning a string to
    that name reaches the accessor inherited from [Object.prototype],
    which ignores it, and the record has no such key. *)
Lemma rowsToObjects_collision :
  (exists obj,
     rowsToObjects (defined [example_row ["/home"] ["5"]])
       (defined [example_header "page"]) (defined [example_header "page"]) = Normal [obj] /\
     props obj !! "page" = Some (VNum (num_of_Z 5)) /\
     props obj !! "page" <> Some (VStr "/home")) /\
  (exists obj,
     rowsToObjects (defined [example_row ["x"] ["5"]])
       (defined [example_header "__proto__"]) (defined [example_header "views"]) = Normal [obj] /\
     props obj !! "__proto__" = None).
Proof.
  split; eexists; (split; [reflexivity|]); [split|]; by vm_compute.
Qed.

(** C7, as the code has it.  In the record of a row, the value found
    under the name of the [i]-th dimension header is the row's [i]-th
    dimension value (null when it is absent), whatever the values are,
    provided the name is not [__proto__] and neither a later dimension
    header nor a metric header bears it too. *)
Theorem dimension_key_order (dhs mhs : list Header) (row : Row) (obj : object)
    (i : nat) (h : Header) :
  row_to_object (defined dhs) (defined mhs) row = Normal obj ->
  dhs !! i = Some h ->
  header_key h <> "__proto__" ->
  (forall i' h', (i < i')%nat -> dhs !! i' = Some h' -> header_key h' <> header_key h) ->
  (forall h', h' ∈ mhs -> header_key h' <> header_key h) ->
  props obj !! header_key h = Some (dimension_value row i).
Proof.
  rewrite row_to_object_defined. intros [= <-]. apply flat_row_dimension.
Qed.

Lemma dimension_key_order_witness :
  props (flat_row [example_header "pageTitle"; example_header "pagePath"]
           [example_header "screenPageViews"]
           (example_row ["Home"; "/"] ["12"])) !! "pagePath"
    = Some (VStr "/").
Proof.
  apply (dimension_key_order
           [example_header "pageTitle"; example_header "pagePath"]
           [example_header "screenPageViews"]
           (example_row ["Home"; "/"] ["12"]) _ 1%nat (example_header "pagePath")).
  - reflexivity.
  - reflexivity.
  - discriminate.
  - intros [|[|i']] h' Hlt Hh'; [lia|lia|discriminate].
  - intros h' ->%list_elem_of_singleton. discriminate.
Defined.

(** C7 as stated fails when two dimension headers share a name: the
    first value is found under no key at all.  It also fails for a
    header named [__proto__], whose value is found under no key. *)
Lemma dimension_key_order_duplicate :
  (exists obj,
     row_to_object (defined [example_header "city"; example_header "city"]) (defined [])
       (example_row ["Paris"; "Lyon"] []) = Normal obj /\
     props obj !! "city" = Some (VStr "Lyon") /\
     forall k, props obj !! k <> Some (VStr "Paris")) /\
  (exists obj,
     row_to_object (defined [example_header "__proto__"]) (defined [])
       (example_row ["Paris"] []) = Normal obj /\
     forall k, props obj !! k = None).
Proof.
  split.
  - eexists. split; [reflexivity|]. split; [by vm_compute|].
    intros k. replace (props _) with ({[ "city" := VStr "Lyon" ]} : gmap string val)
      by (apply map_eq; intros k'; by vm_compute).
    destruct (decide (k = "city")) as [->|Hk].
    + by rewrite lookup_singleton_eq.
    + by rewrite lookup_singleton_ne.
  - eexists. split; [reflexivity|]. intros k.
    replace (props _) with (∅ : gmap string val) by (apply map_eq; intros k'; by vm_compute).
    apply lookup_empty.
Qed.

(** C9, as the code has it.  When a name other than [__proto__] is borne
    by a dimension header and by a metric header, the record holds under
    it the number coerced from the metric value at the last metric
    header of that name, and so never a dimension value. *)
Theorem metric_overwrites_dimension (dhs mhs : list Header) (row : Row) (obj : object)
    (k : string) :
  row_to_object (defined dhs) (defined mhs) row = Normal obj ->
  k <> "__proto__" ->
  k ∈ map header_key dhs ->
  k ∈ map header_key mhs ->
  exists i h,
    mhs !! i = Some h /\ header_key h = k /\
    (forall i' h', (i < i')%nat -> mhs !! i' = Some h' -> header_key h' <> k) /\
    props obj !! k =
      Some (VNum (match value_at (metricValues row) i with
                  | Some s => StringToNumber s
                  | None => pos_zero
                  end)) /\
    forall j, props obj !! k <> Some (dimension_value row j).
Proof.
  rewrite row_to_object_defined. intros [= <-] Hk _ Hmet.
  destruct (last_header_with_key mhs k Hmet) as (i & h & Hi & <- & Hlast).
  exists i, h. split_and!; [done..| |].
  - rewrite (flat_row_metric dhs mhs row i h) by done.
    unfold metric_value. by destruct (value_at _ _).
  - intros j. rewrite (flat_row_metric dhs mhs row i h) by done.
    unfold metric_value, dimension_value. by destruct (value_at _ i), (value_at _ j).
Qed.

Lemma metric_overwrites_dimension_witness :
  exists obj,
    row_to_object (defined [example_header "page"]) (defined [example_header "page"])
      (example_row ["/home"] ["5"]) = Normal obj /\
    props obj !! "page" = Some (VNum (StringToNumber "5")).
Proof.
  eexists. split; [reflexivity|].
  destruct (metric_overwrites_dimension [example_header "page"] [example_header "page"]
              (example_row ["/home"] ["5"]) _ "page" eq_refl)
    as (i & h & Hi & Hh & _ & Hprop & _).
  - discriminate.
  - apply list_elem_of_singleton. reflexivity.
  - apply list_elem_of_singleton. reflexivity.
  - destruct i as [|i]; [|discriminate]. exact Hprop.
Defined.

(** C9 as stated fails for the name [__proto__]: both assignments go to
    the inherited accessor, which ignores a string and a number, and the
    record is left without the key. *)
Lemma metric_overwrites_dimension_proto :
  exists obj,
    row_to_object (defined [example_header "__proto__"]) (defined [example_header "__proto__"])
      (example_row ["x"] ["5"]) = Normal obj /\
    "__proto__" ∈ map header_key [example_header "__proto__"] /\
    props obj !! "__proto__" = None.
Proof.
  eexists. split; [reflexivity|]. split; [by apply list_elem_of_singleton|by vm_compute].
Qed.

(** ** Range Resolver *)



(** C3, as the code has it.  The end date is the ISO rendering of the
    UTC day of the clock, whatever the host's zone.  When the offset
    from UTC in force at the start instant is the one in force now (no
    change of daylight saving falls between them), the two clock
    readings fall on one day, by local and by UTC reckoning, and the
    start instant is a representable time value, [defaultRange(days)]
    returns as start date the rendering of the day [days - 1] days
    before that day; [days] defaults to 28.  Within the years 0 to 9999
    both are strings [YYYY-MM-DD] of ten characters, and the days they
    name are exactly [days - 1] apart. *)
Theorem defaultRange_window (host : Host) (days : option Z) :
  (forall r, defaultRange host days = Normal r ->
     endDate r = QStr (civil_date (Day (now host 0%nat)))) /\
  (offset_at_local (zone host)
     (LocalTime (zone host) (now host 1%nat) - (default 28 days - 1) * msPerDay)
     = offset_at_utc (zone host) (now host 1%nat) ->
   Day (LocalTime (zone host) (now host 1%nat)) = Day (LocalTime (zone host) (now host 0%nat)) ->
   Day (now host 1%nat) = Day (now host 0%nat) ->
   Z.abs (now host 1%nat - (default 28 days - 1) * msPerDay) <= 8640000000000000 ->
   defaultRange host days =
     Normal {| startDate := QStr (civil_date (Day (now host 0%nat) - (default 28 days - 1)));
               endDate := QStr (civil_date (Day (now host 0%nat))) |} /\
   (0 <= YearFromTime (now host 1%nat - (default 28 days - 1) * msPerDay) <= 9999 ->
    0 <= YearFromTime (now host 0%nat) <= 9999 ->
    String.length (civil_date (Day (now host 0%nat) - (default 28 days - 1))) = 10%nat /\
    String.length (civil_date (Day (now host 0%nat))) = 10%nat /\
    iso_day (civil_date (Day (now host 0%nat))) = Day (now host 0%nat) /\
    iso_day (civil_date (Day (now host 0%nat) - (default 28 days - 1)))
      = Day (now host 0%nat) - (default 28 days - 1) /\
    iso_day (civil_date (Day (now host 0%nat)))
      - iso_day (civil_date (Day (now host 0%nat) - (default 28 days - 1)))
      = default 28 days - 1)).
Proof.
  split.
  - intros r. unfold defaultRange. cbn zeta.
    destruct (toISO (setDate _ _ _)) as [s|e]; [|done].
    rewrite toISO_civil_date. by intros [= <-].
  - intros Hoffset Hlday Hday Hclip.
    set (n := default 28 days) in *.
    assert (default_start host days = now host 1%nat - (n - 1) * msPerDay) as Hstart.
    { unfold default_start, UTC. fold n. rewrite Hoffset. unfold LocalTime. lia. }
    assert (Day (now host 1%nat - (n - 1) * msPerDay) = Day (now host 0%nat) - (n - 1)) as Hsday.
    { rewrite <- Hday. unfold Day.
      replace (now host 1%nat - (n - 1) * msPerDay)
        with (now host 1%nat + (- (n - 1)) * msPerDay) by lia.
      rewrite Z.div_add by done. lia. }
    split.
    + rewrite defaultRange_start, Hstart by done. unfold TimeClip.
      destruct (Z.leb_spec (Z.abs (now host 1%nat - (n - 1) * msPerDay)) 8640000000000000)
        as [_|]; [|lia].
      rewrite toISO_civil_date. cbn [mbind completion_bind]. by rewrite Hsday.
    + intros Hys Hye. rewrite <- Hsday.
      pose proof (iso_day_civil_date _ Hys) as Hs.
      pose proof (iso_day_civil_date _ Hye) as He.
      rewrite !length_civil_date by done. rewrite Hs, He. split_and!; try done. lia.
Qed.

(** At 2024-12-15T00:30:00Z on a host that keeps US Eastern time, where
    it is still the 14th, the default window runs from 2024-11-18 to
    2024-12-15: both ends lie in standard time, and the two dates are 27
    days apart. *)
Lemma defaultRange_window_witness :
  defaultRange example_december_host None =
    Normal {| startDate := QStr "2024-11-18"; endDate := QStr "2024-12-15" |} /\
  iso_day "2024-12-15" - iso_day "2024-11-18" = 28 - 1.
Proof.
  destruct (defaultRange_window example_december_host None) as [_ H].
  destruct H as [Hrange Hdays]; [reflexivity..|vm_compute; discriminate 1|].
  split.
  - rewrite Hrange. vm_compute. reflexivity.
  - destruct Hdays as (_ & _ & _ & _ & Hspan); [vm_compute; split; discriminate 1..|].
    exact Hspan.
Defined.

(** C3 as stated fails on a host that keeps a local time with daylight
    saving.  At 2024-11-10T00:30:00Z, which is 19:30 on 2024-11-09 in US
    Eastern time, the window runs from day 20009 (2024-10-13) to day
    20037 (2024-11-10): the end is not the local today, day 20036, and
    the two are 28 days apart, not 27. *)
Lemma defaultRange_eastern :
  defaultRange example_eastern_host None =
    Normal {| startDate := QStr (civil_date 20009); endDate := QStr (civil_date 20037) |} /\
  civil_date 20009 = "2024-10-13" /\
  civil_date 20037 = "2024-11-10" /\
  Day (LocalTime (zone example_eastern_host) (now example_eastern_host 0%nat)) = 20036 /\
  civil_date 20036 = "2024-11-09" /\
  20037 - 20009 <> 28 - 1.
Proof. split_and!; [by vm_compute..|lia]. Qed.

(** ** Views *)

Lemma route_reply_Normal (r : route) (host : Host) (query : Query) (range : DateRange)
    (data : ReportResult) :
  runReport host [range] (Some (route_dimensions r)) (Some (route_metrics r query))
    = Normal data ->
  route_reply r host query (Normal range)
    = {| status := 200; body := route_body r query range data; logged := [] |}.
Proof. intros Hdata. unfold route_reply. cbn [mbind completion_bind]. by rewrite Hdata. Qed.




Lemma handler_resolved (r : route) (host : Host) (query : Query) (range : DateRange)
    (res : RunReportResponse) (objs : list object) :
  resolve_range host query = Normal range ->
  analyticsDataClient host (route_request r host query range) = Normal res ->
  rowsToObjects (res_rows res) (res_dimensionHeaders res) (res_metricHeaders res) = Normal objs ->
  handler r host query =
    {| status := 200;
       body := route_body r query range {| meta := report_meta res; rows := objs |};
       logged := [] |}.
Proof.
  intros Hrange Hres Hobjs. rewrite handler_shape, Hrange.
  apply route_reply_Normal. by apply runReport_resolved.
Qed.

(** C4.  When the upstream report has no rows the overview replies 200
    with every one of the eight KPIs at 0 and logs nothing; and when it
    has a row, a KPI that the row lacks (or holds as null) is 0, while
    one that it holds is passed on. *)
Theorem overview_defaults (host : Host) (query : Query) (range : DateRange)
    (res : RunReportResponse) :
  resolve_range host query = Normal range ->
  analyticsDataClient host (route_request Overview host query range) = Normal res ->
  (or_empty (res_rows res) = defined [] ->
   overview host query =
     {| status := 200; body := OverviewBody range zero_kpis (report_meta res); logged := [] |}) /\
  (forall row rest,
     rowsToObjects (res_rows res) (res_dimensionHeaders res) (res_metricHeaders res)
       = Normal (row :: rest) ->
     status (overview host query) = 200 /\
     logged (overview host query) = [] /\
     forall k, k ∈ overview_metrics ->
       body_kpi (body (overview host query)) k =
         Some (match props row !! k with
               | None | Some VNull | Some VUndefined => VNum pos_zero
               | Some v => v
               end)).
Proof.
  intros Hrange Hres. split.
  - intros Hrows.
    assert (rowsToObjects (res_rows res) (res_dimensionHeaders res) (res_metricHeaders res)
            = Normal []) as Hobjs by (unfold rowsToObjects; by rewrite Hrows).
    exact (handler_resolved Overview _ _ _ _ _ Hrange Hres Hobjs).
  - intros row rest Hobjs.
    pose proof (handler_resolved Overview _ _ _ _ _ Hrange Hres Hobjs) as Hreply.
    cbn [handler] in Hreply. rewrite Hreply. clear Hreply.
    split; [done|]. split; [done|]. intros k Hk.
    unfold overview_metrics in Hk.
    repeat (apply elem_of_cons in Hk as [->|Hk];
            [cbn; unfold kpi, get_prop;
             by destruct (props row !! _) as [[]|]|]).
    by apply elem_of_nil in Hk.
Qed.

(** An empty report: all eight KPIs are 0.  A row with two metrics:
    [newUsers], which it lacks, is 0. *)
Lemma overview_defaults_witness :
  body (overview (example_host (fun _ => Normal example_empty_overview))
          (example_query None None None))
    = OverviewBody example_range zero_kpis (report_meta example_empty_overview) /\
  body_kpi (body (overview (example_host (fun _ => Normal example_partial_overview))
                    (example_query None None None))) "newUsers"
    = Some (VNum pos_zero).
Proof.
  assert (forall client, resolve_range (example_host client) (example_query None None None)
                         = Normal example_range) as Hrange
    by (intros client; vm_compute; reflexivity).
  split.
  - destruct (overview_defaults (example_host (fun _ => Normal example_empty_overview))
                (example_query None None None) example_range example_empty_overview
                (Hrange _) eq_refl)
      as [H _].
    rewrite H; reflexivity.
  - destruct (overview_defaults (example_host (fun _ => Normal example_partial_overview))
                (example_query None None None) example_range example_partial_overview
                (Hrange _) eq_refl)
      as [_ H].
    destruct (H _ _ (rowsToObjects_defined [example_row [] ["42"; "57"]] []
                       (map example_header ["totalUsers"; "sessions"])))
      as (_ & _ & Hk).
    clear H Hrange. rewrite (Hk "newUsers"); [vm_compute; reflexivity|].
    unfold overview_metrics. do 2 right. left.
Defined.



(** C6, as the code has it.  At every route, when [start] and [end] are
    both present and truthy (as a string: not empty) they become the
    date range as they are, whatever they hold; when either is absent
    the range is [defaultRange(28)]. *)
Theorem range_resolution (r : route) (host : Host) (query : Query) :
  (forall s e, start query = Some s -> end_ query = Some e ->
     truthy s = true -> truthy e = true ->
     handler r host query =
       route_reply r host query (Normal {| startDate := s; endDate := e |})) /\
  (start query = None \/ end_ query = None ->
   handler r host query = route_reply r host query (defaultRange host (Some 28))).
Proof.
  split.
  - intros s e Hs He Hts Hte. by rewrite handler_shape, (resolve_range_truthy _ _ s e).
  - intros H. rewrite handler_shape, resolve_range_default; [done|].
    destruct H as [H|H]; [left|right]; intros x Hx; congruence.
Qed.

(** Dates that are not dates pass through; a lone [start] does not. *)
Lemma range_resolution_witness :
  body_range (body (devices (example_host (fun _ => Normal example_devices))
                      (example_query (Some "yesterday") (Some "31/12/2024") None)))
    = Some {| startDate := QStr "yesterday"; endDate := QStr "31/12/2024" |} /\
  body_range (body (devices (example_host (fun _ => Normal example_devices))
                      (example_query (Some "2024-01-01") None None)))
    = Some {| startDate := QStr "2024-10-14"; endDate := QStr "2024-11-10" |}.
Proof.
  split.
  - destruct (range_resolution Devices (example_host (fun _ => Normal example_devices))
                (example_query (Some "yesterday") (Some "31/12/2024") None)) as [H _].
    cbn [handler] in H. rewrite (H _ _ eq_refl eq_refl eq_refl eq_refl). clear.
    vm_compute. reflexivity.
  - destruct (range_resolution Devices (example_host (fun _ => Normal example_devices))
                (example_query (Some "2024-01-01") None None)) as [_ H].
    cbn [handler] in H. rewrite H; [clear; vm_compute; reflexivity|right; reflexivity].
Defined.

(** C6 as stated fails when a parameter is present and empty: with
    [start=] and [end=2024-01-03] the range is the default window, not
    the two values. *)
Lemma range_resolution_empty_start :
  start (example_query (Some "") (Some "2024-01-03") None) = Some (QStr "") /\
  end_ (example_query (Some "") (Some "2024-01-03") None) = Some (QStr "2024-01-03") /\
  body_range (body (devices (example_host (fun _ => Normal example_devices))
                      (example_query (Some "") (Some "2024-01-03") None)))
    = Some {| startDate := QStr "2024-10-14"; endDate := QStr "2024-11-10" |} /\
  body_range (body (devices (example_host (fun _ => Normal example_devices))
                      (example_query (Some "") (Some "2024-01-03") None)))
    <> Some {| startDate := QStr ""; endDate := QStr "2024-01-03" |}.
Proof. split_and!; by vm_compute. Qed.

(** C8.  The devices reply carries the records of [rowsToObjects] as
    they are: one per upstream row, in the upstream's order. *)
Theorem devices_all_rows (host : Host) (query : Query) (range : DateRange)
    (res : RunReportResponse) (objs : list object) :
  resolve_range host query = Normal range ->
  analyticsDataClient host (route_request Devices host query range) = Normal res ->
  rowsToObjects (res_rows res) (res_dimensionHeaders res) (res_metricHeaders res) = Normal objs ->
  devices host query = {| status := 200; body := RowsBody range objs; logged := [] |} /\
  forall rows dhs mhs,
    res_rows res = defined rows ->
    res_dimensionHeaders res = defined dhs ->
    res_metricHeaders res = defined mhs ->
    objs = map (flat_row dhs mhs) rows /\
    length objs = length rows /\
    forall i, objs !! i = flat_row dhs mhs <$> rows !! i.
Proof.
  intros Hrange Hres Hobjs. split.
  - exact (handler_resolved Devices _ _ _ _ _ Hrange Hres Hobjs).
  - intros rows dhs mhs Hr Hd Hm. rewrite Hr, Hd, Hm, rowsToObjects_defined in Hobjs.
    injection Hobjs as <-. split; [done|]. split; [apply length_map|].
    intros i. apply list_lookup_fmap.
Qed.

Lemma devices_all_rows_witness :
  exists mobile desktop,
    body_rows (body (devices (example_host (fun _ => Normal example_devices))
                       (example_query None None None))) = Some [mobile; desktop] /\
    props mobile !! "deviceCategory" = Some (VStr "mobile") /\
    props desktop !! "deviceCategory" = Some (VStr "desktop").
Proof.
  assert (resolve_range (example_host (fun _ => Normal example_devices))
            (example_query None None None) = Normal example_range) as Hrange
    by (vm_compute; reflexivity).
  destruct (devices_all_rows (example_host (fun _ => Normal example_devices))
              (example_query None None None) example_range example_devices _
              Hrange eq_refl (rowsToObjects_defined _ _ _))
    as [H _].
  eexists _, _. rewrite H. clear. split; [reflexivity|]. split; vm_compute; reflexivity.
Defined.

(** A route reads the query, past its range, for [metric] and [limit]
    only. *)
Lemma route_reply_ext (r : route) (host : Host) (q q' : Query) (range : completion DateRange) :
  metric q = metric q' -> limit q = limit q' ->
  route_reply r host q range = route_reply r host q' range.
Proof.
  intros Hm Hl. unfold route_reply.
  destruct r; cbn [route_metrics route_body]; unfold Number_limit; rewrite ?Hm, ?Hl;
    reflexivity.
Qed.

(** C10.  At every route an empty [start] or [end] is handled as if the
    parameter were not there, and the range is [defaultRange(28)]. *)
Theorem empty_string_as_absent (r : route) (host : Host) (query : Query) :
  (start query = Some (QStr "") ->
   handler r host query = route_reply r host query (defaultRange host (Some 28)) /\
   handler r host query =
     handler r host {| start := None; end_ := end_ query;
                       metric := metric query; limit := limit query |}) /\
  (end_ query = Some (QStr "") ->
   handler r host query = route_reply r host query (defaultRange host (Some 28)) /\
   handler r host query =
     handler r host {| start := start query; end_ := None;
                       metric := metric query; limit := limit query |}).
Proof.
  split; intros Hempty.
  - assert (resolve_range host query = defaultRange host (Some 28)) as Hq.
    { apply resolve_range_default. left. intros s Hs. rewrite Hempty in Hs. by injection Hs as <-. }
    split; [by rewrite handler_shape, Hq|].
    rewrite !handler_shape, Hq. rewrite resolve_range_default by (by left).
    apply route_reply_ext; reflexivity.
  - assert (resolve_range host query = defaultRange host (Some 28)) as Hq.
    { apply resolve_range_default. right. intros s Hs. rewrite Hempty in Hs. by injection Hs as <-. }
    split; [by rewrite handler_shape, Hq|].
    rewrite !handler_shape, Hq. rewrite resolve_range_default by (by right).
    apply route_reply_ext; reflexivity.
Qed.

Lemma empty_string_as_absent_witness :
  body_range (body (overview (example_host (fun _ => Normal example_empty_overview))
                      (example_query (Some "") (Some "2024-01-03") None)))
    = Some {| startDate := QStr "2024-10-14"; endDate := QStr "2024-11-10" |}.
Proof.
  destruct (empty_string_as_absent Overview
              (example_host (fun _ => Normal example_empty_overview))
              (example_query (Some "") (Some "2024-01-03") None)) as [H _].
  destruct (H eq_refl) as [Hreply _]. cbn [handler] in Hreply. rewrite Hreply. clear.
  vm_compute. reflexivity.
Defined.

(** * More of google.js *)

(** ** Row Flattener: when it throws, and what a record holds *)

(** [rowsToObjects] throws exactly when [rows] is null, or when there is
    a row to flatten and a header list is null; a null header list is
    never looked at when there are no rows. *)
Theorem rowsToObjects_throws (rows : nullable (list Row)) (dhs mhs : nullable (list Header)) :
  (rows = null -> rowsToObjects rows dhs mhs = Throw (TypeError_not_iterable "map")) /\
  (forall row rest, rows = defined (row :: rest) -> dhs = null \/ mhs = null ->
     rowsToObjects rows dhs mhs = Throw (TypeError_not_iterable "forEach")) /\
  (rows <> null ->
   (forall row rest, rows = defined (row :: rest) -> dhs <> null /\ mhs <> null) ->
   exists objs, rowsToObjects rows dhs mhs = Normal objs /\
     length objs = match rows with defined l => length l | _ => 0%nat end).
Proof.
  split_and!.
  - by intros ->.
  - intros row rest -> Hnull. unfold rowsToObjects. cbn [or_empty map_throwing].
    unfold row_to_object.
    destruct Hnull as [-> | ->]; [done|]. by destruct dhs.
  - intros Hrows Hheaders. unfold rowsToObjects.
    destruct rows as [| |[|row rest]]; try done; cbn [or_empty].
    + by exists [].
    + by exists [].
    + destruct (Hheaders row rest eq_refl) as [Hd Hm].
      destruct dhs as [| |d], mhs as [| |m]; try done; cbn [or_empty];
        rewrite (map_throwing_Normal _ (flat_row _ _)) by done;
        eexists; (split; [reflexivity|]); by rewrite length_map.
Qed.

(** Assignments keep what holds of every stored value. *)
Lemma set_prop_Forall (P : val -> Prop) (o : object) (k : string) (v : val) :
  (forall k' v', props o !! k' = Some v' -> P v') -> P v ->
  forall k' v', props (set_prop o k v) !! k' = Some v' -> P v'.
Proof.
  intros Ho Hv k' v'. unfold set_prop.
  assert (<[k:=v]> (props o) !! k' = Some v' -> P v') as Hins.
  { rewrite lookup_insert. case_decide; [by intros [= <-]|apply Ho]. }
  destruct (props o !! k), (proto o); cbn [props]; try done.
  destruct (decide _); [|done]. destruct v; apply Ho.
Qed.

Section forEach_keys.
Context (f : nat -> val).

Abbreviation assign := (fun (obj : object) (h : Header) (i : nat) => set_prop obj (header_key h) (f i)).

Lemma forEach_from_Forall (P : val -> Prop) (hs : list Header) (n : nat) (o : object) :
  (forall i, P (f i)) ->
  (forall k v, props o !! k = Some v -> P v) ->
  forall k v, props (forEach_from assign n hs o) !! k = Some v -> P v.
Proof.
  intros Hf. revert n o. induction hs as [|h hs IH]; intros n o Ho; cbn [forEach_from]; [done|].
  apply IH. by apply set_prop_Forall.
Qed.

Lemma forEach_from_keys (hs : list Header) (n : nat) (o : object) (k : string) :
  k <> "__proto__" ->
  is_Some (props (forEach_from assign n hs o) !! k)
    <-> is_Some (props o !! k) \/ k ∈ header_keys hs.
Proof.
  intros Hk. revert n o. induction hs as [|h hs IH]; intros n o; cbn [forEach_from header_keys map].
  - rewrite elem_of_nil. tauto.
  - fold (header_keys hs). rewrite IH, props_set_prop, elem_of_cons by done.
    case_decide as Hh; [subst k|]; split.
    + intros _. right. by left.
    + intros _. left. by eexists.
    + tauto.
    + intros [H|[H|H]]; [tauto|congruence|tauto].
Qed.
End forEach_keys.



(** ** The ranked routes: ties, the rows left out, and the limit *)

Lemma key_compare_Eq (a b : Z * (Z * Z)) : key_compare a b = Eq -> a = b.
Proof.
  destruct a as [a1 [a2 a3]], b as [b1 [b2 b3]]. unfold key_compare. cbn [fst snd].
  destruct (Z.compare_spec a1 b1); try done.
  destruct (Z.compare_spec a2 b2); try done.
  destruct (Z.compare_spec a3 b3); try done.
  intros _. congruence.
Qed.

Lemma num_eqb_key (x y : number) :
  is_nan x = false -> is_nan y = false ->
  num_eqb x y = true <-> key_compare (num_key x) (num_key y) = Eq.
Proof.
  intros Hx Hy. unfold num_eqb, SFeqb. rewrite SFcompare_key by done.
  by destruct (key_compare _ _).
Qed.

Lemma num_eqb_nan_r (x y : number) : is_nan y = true -> num_eqb x y = false.
Proof. destruct y; try done. intros _. by destruct x. Qed.

Section ties.
Context {A : Type} (comparefn : A -> A -> number) (rank : A -> number).
Hypothesis comparefn_rank : forall a b, comparefn a b = num_sub (rank b) (rank a).

Abbreviation tied v := (fun a : A => num_eqb (rank a) v = true).

(** A row tied with [v] is put in front of the rows tied with [v]. *)
Lemma sort_insert_ties (v : number) (x : A) (l : list A) :
  comparable (rank x) -> Forall (fun a => comparable (rank a)) l ->
  filter (tied v) (sort_insert comparefn x l) = filter (tied v) (x :: l).
Proof.
  intros Hx Hl. destruct (is_nan v) eqn:Hv.
  { assert (forall l', filter (tied v) l' = []) as Hnone.
    { induction l' as [|a l' IH]; [done|].
      rewrite filter_cons, decide_False; [done|]. by rewrite num_eqb_nan_r. }
    by rewrite !Hnone. }
  induction Hl as [|y l Hy Hl IH]; [done|]. cbn [sort_insert].
  pose proof Hx as [Hvx Hnx]. pose proof Hy as [Hvy Hny].
  rewrite comparefn_rank, sort_sign_sub by done.
  destruct (num_compare (rank y) (rank x)) eqn:Hc; [done..|].
  rewrite filter_cons, IH, !(filter_cons _ x), (filter_cons _ y).
  destruct (decide (num_eqb (rank x) v = true)) as [Hxv|Hxv]; [|done].
  assert (~ num_eqb (rank y) v = true) as Hyv.
  { rewrite num_eqb_key in Hxv |- * by done. apply key_compare_Eq in Hxv.
    unfold num_compare in Hc. rewrite SFcompare_key in Hc by done. cbn in Hc.
    rewrite <- Hxv. by rewrite Hc. }
  by repeat (rewrite decide_False by exact Hyv).
Qed.

(** [sort] is stable: the rows tied with [v] come out in the order they
    went in. *)
Lemma array_sort_ties (v : number) (l : list A) :
  Forall (fun a => comparable (rank a)) l ->
  filter (tied v) (array_sort comparefn l) = filter (tied v) l.
Proof.
  induction 1 as [|x l Hx Hl IH]; [done|].
  rewrite array_sort_cons, sort_insert_ties; [|done|by rewrite array_sort_perm].
  by rewrite !(filter_cons _ x), IH.
Qed.
End ties.

Lemma descending_by_rank (k : string) (a b : object) :
  descending_by k a b = num_sub (rank_of k b) (rank_of k a).
Proof. reflexivity. Qed.

Lemma ranked_reply (r : route) (k : string) (host : Host) (query : Query)
    (range : DateRange) (data : ReportResult) :
  designated_metric r = Some k ->
  resolve_range host query = Normal range ->
  runReport host [range] (Some (route_dimensions r)) (Some (route_metrics r query))
    = Normal data ->
  handler r host query =
    {| status := 200;
       body := RowsBody range
         (take (Z.to_nat (clamp_index (Z.of_nat (length (rows data)))
                           (ToIntegerOrInfinity (Number_limit query))))
            (array_sort (descending_by k) (rows data)));
       logged := [] |}.
Proof.
  intros Hk Hrange Hdata.
  rewrite handler_shape, Hrange, (route_reply_Normal _ _ _ _ data) by done.
  destruct r; try done; injection Hk as <-; cbn [route_body];
    by rewrite array_slice_from_0, array_sort_length.
Qed.

Lemma runReport_comparable (k : string) (host : Host) (ranges : list DateRange)
    (dims mets : list string) (data : ReportResult) :
  runReport host ranges (Some dims) (Some mets) = Normal data ->
  (forall row, row ∈ rows data -> is_nan (rank_of k row) = false) ->
  Forall (fun row => comparable (rank_of k row)) (rows data).
Proof.
  intros Hdata Hrows. pose proof (runReport_valid _ _ _ _ _ Hdata) as Hvalid.
  rewrite Forall_forall in Hvalid |- *. intros row Hrow. split.
  - by apply rank_of_valid, Hvalid.
  - by apply Hrows.
Qed.


(** The sample hosts answer every request with the same response. *)
Lemma example_runReport (dims mets : list string) (rs : list Row)
    (ranges : list DateRange) (d m : list string) :
  runReport (example_host (fun _ => Normal (example_response dims mets rs))) ranges
    (Some d) (Some m) = Normal (example_result dims mets rs).
Proof.
  apply (runReport_resolved _ _ _ _ (example_response dims mets rs)); [reflexivity|].
  apply rowsToObjects_defined.
Qed.

Lemma example_january_range (client : RunReportRequest -> completion RunReportResponse)
    (limit : option string) :
  resolve_range (example_host client) (example_january limit) = Normal january.
Proof. reflexivity. Qed.

Lemma example_tied_comparable (row : object) :
  row ∈ rows example_tied_result -> is_nan (rank_of "screenPageViews" row) = false.
Proof.
  intros Hrow. cbn [rows example_tied_result example_result example_tied_rows map] in Hrow.
  repeat (apply elem_of_cons in Hrow as [->|Hrow]; [vm_compute; reflexivity|]).
  apply elem_of_nil in Hrow. destruct Hrow.
Qed.




Lemma resolve_range_ext (host : Host) (q q' : Query) :
  start q = start q' -> end_ q = end_ q' -> resolve_range host q = resolve_range host q'.
Proof. intros Hs He. unfold resolve_range. by rewrite Hs, He. Qed.



(** ** The routes as a whole *)

(** A route reads only its own parameters: two queries with the same
    [start] and [end], the same [metric] where the route is the time
    series and the same [limit] where the route ranks its rows get the
    same reply. *)
Theorem unread_parameters (r : route) (host : Host) (q q' : Query) :
  start q = start q' -> end_ q = end_ q' ->
  (r = Timeseries -> metric q = metric q') ->
  (is_Some (designated_metric r) -> limit q = limit q') ->
  handler r host q = handler r host q'.
Proof.
  intros Hs He Hmetric Hlimit.
  rewrite !handler_shape, (resolve_range_ext host q q') by done.
  assert (route_metrics r q = route_metrics r q') as Hmetrics.
  { destruct r; try done. cbn [route_metrics]. by rewrite Hmetric. }
  assert (forall range data, route_body r q range data = route_body r q' range data) as Hbody.
  { intros range data. destruct r; try done; cbn [route_body].
    - by rewrite Hmetric.
    - unfold Number_limit. by rewrite Hlimit by by eexists.
    - unfold Number_limit. by rewrite Hlimit by by eexists. }
  unfold route_reply. rewrite Hmetrics.
  destruct (resolve_range host q'); [|done]. cbn [mbind completion_bind].
  destruct (runReport _ _ _ _); [|done]. cbn [mbind completion_bind]. by rewrite Hbody.
Qed.

Lemma unread_parameters_witness :
  handler Devices (example_host (fun _ => Normal example_devices))
    {| start := None; end_ := None; metric := Some (QStr "sessions"); limit := Some (QStr "1") |}
  = handler Devices (example_host (fun _ => Normal example_devices))
      {| start := None; end_ := None; metric := None; limit := None |}.
Proof.
  apply (unread_parameters Devices).
  - reflexivity.
  - reflexivity.
  - discriminate.
  - intros [k Hk]. discriminate Hk.
Defined.

Lemma runReport_host_ext (host host' : Host) (ranges : list DateRange)
    (dims mets : option (list string)) :
  PROPERTY_ID host = PROPERTY_ID host' ->
  analyticsDataClient host = analyticsDataClient host' ->
  runReport host ranges dims mets = runReport host' ranges dims mets.
Proof. intros Hid Hclient. unfold runReport, report_request. by rewrite Hid, Hclient. Qed.

(** When the caller gives both bounds the reply owes nothing to the
    clock or the time zone of the host: two hosts with the same property
    and the same upstream reply alike. *)
Theorem given_range_ignores_clock (r : route) (host host' : Host) (query : Query)
    (s e : qvalue) :
  start query = Some s -> end_ query = Some e ->
  truthy s = true -> truthy e = true ->
  PROPERTY_ID host = PROPERTY_ID host' ->
  analyticsDataClient host = analyticsDataClient host' ->
  handler r host query = handler r host' query.
Proof.
  intros Hs He Hts Hte Hid Hclient.
  rewrite !handler_shape, !(resolve_range_truthy _ query s e) by done.
  unfold route_reply. cbn [mbind completion_bind].
  by rewrite (runReport_host_ext host host').
Qed.

Lemma given_range_ignores_clock_witness :
  handler Devices (example_host (fun _ => Normal example_devices)) (example_january None)
  = handler Devices
      {| PROPERTY_ID := "123456789"; zone := eastern_2024; now := fun n => Z.of_nat n;
         analyticsDataClient := fun _ => Normal example_devices |}
      (example_january None).
Proof.
  apply (given_range_ignores_clock Devices _ _ _ (QStr "2024-01-01") (QStr "2024-01-31"));
    reflexivity.
Defined.


(** ** Dates *)

(** For the years 0 to 9999 [toISO] gives the ten characters
    [YYYY-MM-DD] of the UTC day: four digits of the year, two of a month
    from 1 to 12 and two of a day from 1 to 31. *)
Theorem toISO_format (t : Z) :
  0 <= YearFromTime t <= 9999 ->
  toISO (Some t) =
    Normal (digits_string 4 (YearFromTime t) +:+ "-" +:+ digits_string 2 (MonthFromTime t + 1)
            +:+ "-" +:+ digits_string 2 (DateFromTime t)) /\
  1 <= MonthFromTime t + 1 <= 12 /\
  1 <= DateFromTime t <= 31 /\
  forall s, toISO (Some t) = Normal s -> String.length s = 10%nat.
Proof.
  intros Hy. rewrite toISO_civil_date, civil_date_format by done.
  pose proof (MonthFromTime_bounds t). pose proof (DateFromTime_bounds t).
  split_and!; try lia; [done|].
  intros s Hs.
  match type of Hs with
  | Normal ?x = _ =>
    assert (String.length x = 10%nat) as Hlen
      by (rewrite !length_append, !length_digits_string; reflexivity)
  end.
  congruence.
Qed.

Lemma toISO_format_witness :
  toISO (Some 1731198600000) =
    Normal (digits_string 4 (YearFromTime 1731198600000) +:+ "-" +:+
            digits_string 2 (MonthFromTime 1731198600000 + 1)
            +:+ "-" +:+ digits_string 2 (DateFromTime 1731198600000)) /\
  1 <= MonthFromTime 1731198600000 + 1 <= 12 /\
  1 <= DateFromTime 1731198600000 <= 31 /\
  forall s, toISO (Some 1731198600000) = Normal s -> String.length s = 10%nat.
Proof. apply (toISO_format 1731198600000). vm_compute. split; discriminate. Defined.

(** Outside the years 0 to 9999 the ISO rendering opens with a sign and
    six digits of the year, so the ten characters [toISO] keeps are the
    sign, the year, a hyphen and the month: the day is cut off. *)
Theorem toISO_wide_year (t : Z) :
  YearFromTime t < 0 \/ 9999 < YearFromTime t ->
  toISO (Some t) =
    Normal ((if YearFromTime t <? 0 then "-" else "+") +:+
            digits_string 6 (Z.abs (YearFromTime t)) +:+ "-" +:+
            digits_string 2 (MonthFromTime t + 1)).
Proof.
  intros Hy. rewrite toISO_civil_date. unfold civil_date. cbn zeta.
  rewrite YearFromTime_Day, MonthFromTime_Day, DateFromTime_Day.
  unfold year_string.
  assert ((0 <=? YearFromTime t) && (YearFromTime t <=? 9999) = false) as ->.
  { destruct (Z.leb_spec 0 (YearFromTime t)), (Z.leb_spec (YearFromTime t) 9999); try done; lia. }
  f_equal. unfold string_prefix.
  set (sign := if _ <? 0 then _ else _). set (y := digits_string 6 _).
  set (m := digits_string 2 _). set (d := digits_string 2 _).
  assert (String.length (sign +:+ y +:+ "-" +:+ m) = 10%nat) as Hlen.
  { rewrite !length_append. unfold y, m. rewrite !length_digits_string.
    unfold sign. by destruct (_ <? 0). }
  rewrite <- Hlen.
  replace ((sign +:+ y) +:+ "-" +:+ m +:+ "-" +:+ d)
    with ((sign +:+ y +:+ "-" +:+ m) +:+ "-" +:+ d) by by rewrite !append_assoc.
  apply substring_0_append.
Qed.

Lemma toISO_wide_year_witness :
  toISO (Some 8640000000000000) =
    Normal ((if YearFromTime 8640000000000000 <? 0 then "-" else "+") +:+
            digits_string 6 (Z.abs (YearFromTime 8640000000000000)) +:+ "-" +:+
            digits_string 2 (MonthFromTime 8640000000000000 + 1)).
Proof. apply (toISO_wide_year 8640000000000000). right. vm_compute. reflexivity. Defined.

(** Within the years 0 to 9999 the date string determines the day: its
    fields read back as the year, the month and the day of the month,
    from which [MakeDay] rebuilds the day number; so two instants get
    the same string exactly when they fall on the same UTC day. *)
Theorem toISO_round_trip (t : Z) (s : string) :
  0 <= YearFromTime t <= 9999 ->
  toISO (Some t) = Normal s ->
  iso_fields s = (YearFromTime t, MonthFromTime t + 1, DateFromTime t) /\
  MakeDay (iso_fields s).1.1 ((iso_fields s).1.2 - 1) (iso_fields s).2 = Day t /\
  forall t', 0 <= YearFromTime t' <= 9999 ->
    (toISO (Some t') = Normal s <-> Day t' = Day t).
Proof.
  intros Hy. rewrite toISO_civil_date. intros Hs.
  assert (s = civil_date (Day t)) as -> by congruence. clear Hs.
  destruct (civil_date_read_back t Hy) as [Hfields Hday].
  split; [exact Hfields|]. split; [exact Hday|].
  intros t' Hy'. rewrite toISO_civil_date. split.
  - intros Hs. destruct (civil_date_read_back t' Hy') as [_ Hday'].
    assert (civil_date (Day t') = civil_date (Day t)) as Heq by congruence.
    rewrite <- Hday', Heq. exact Hday.
  - intros ->. reflexivity.
Qed.

Lemma toISO_round_trip_witness :
  iso_fields "2024-11-10"
    = (YearFromTime 1731198600000, MonthFromTime 1731198600000 + 1, DateFromTime 1731198600000) /\
  MakeDay (iso_fields "2024-11-10").1.1 ((iso_fields "2024-11-10").1.2 - 1)
    (iso_fields "2024-11-10").2 = Day 1731198600000 /\
  forall t', 0 <= YearFromTime t' <= 9999 ->
    (toISO (Some t') = Normal "2024-11-10" <-> Day t' = Day 1731198600000).
Proof.
  apply (toISO_round_trip 1731198600000 "2024-11-10").
  - vm_compute. split; discriminate.
  - vm_compute. reflexivity.
Defined.

(** The default window in any time zone.  When the two clock readings
    fall on one local day and the start instant is representable, the
    end date is the rendering of the UTC day of the clock and the start
    date that of the UTC day of the start instant: local time now, moved
    back [days - 1] days, and turned to UTC with the offset in force
    there.  In a zone whose offsets never differ by more than a day that
    start day is [days - 1] days before the UTC day of the clock, give
    or take one day. *)
Theorem defaultRange_any_zone (host : Host) (days : option Z) :
  Day (LocalTime (zone host) (now host 1%nat)) = Day (LocalTime (zone host) (now host 0%nat)) ->
  Z.abs (default_start host days) <= 8640000000000000 ->
  defaultRange host days =
    Normal {| startDate := QStr (civil_date (Day (default_start host days)));
              endDate := QStr (civil_date (Day (now host 0%nat))) |} /\
  ((forall t t', Z.abs (offset_at_utc (zone host) t - offset_at_local (zone host) t') <= msPerDay) ->
   Day (now host 1%nat) - (default 28 days - 1) - 1
     <= Day (default_start host days)
     <= Day (now host 1%nat) - (default 28 days - 1) + 1).
Proof.
  intros Hlday Hclip. split.
  - rewrite defaultRange_start by done. unfold TimeClip.
    destruct (Z.leb_spec (Z.abs (default_start host days)) 8640000000000000); [|lia].
    by rewrite toISO_civil_date.
  - intros Hzone. unfold default_start, UTC, LocalTime in *.
    set (n := default 28 days) in *. set (t := now host 1%nat) in *.
    specialize (Hzone t (t + offset_at_utc (zone host) t - (n - 1) * msPerDay)).
    set (d := offset_at_utc (zone host) t - offset_at_local (zone host) _) in *.
    replace (t + offset_at_utc (zone host) t - (n - 1) * msPerDay - offset_at_local (zone host) _)
      with (t + d + (- (n - 1)) * msPerDay) by (unfold d; lia).
    unfold Day. rewrite Z.div_add by done.
    clearbody d t. unfold msPerDay in *. clear Hlday Hclip.
    Z.div_mod_to_equations. lia.
Qed.

Lemma eastern_2024_offsets (t t' : Z) :
  Z.abs (offset_at_utc eastern_2024 t - offset_at_local eastern_2024 t') <= msPerDay.
Proof.
  cbn [eastern_2024 offset_at_utc offset_at_local]. unfold msPerDay.
  destruct (t <? 1730613600000), (t' <? 1730599200000); lia.
Qed.

(** US Eastern time at 2024-11-10T00:30:00Z: the window reaches back
    across the end of daylight saving; the start day is off by one. *)
Lemma defaultRange_any_zone_witness :
  defaultRange example_eastern_host None =
    Normal {| startDate := QStr (civil_date (Day (default_start example_eastern_host None)));
              endDate := QStr (civil_date (Day (now example_eastern_host 0%nat))) |} /\
  Day (now example_eastern_host 1%nat) - (default 28 None - 1) - 1
    <= Day (default_start example_eastern_host None)
    <= Day (now example_eastern_host 1%nat) - (default 28 None - 1) + 1.
Proof.
  destruct (defaultRange_any_zone example_eastern_host None) as [Hrange Hbound].
  - reflexivity.
  - vm_compute. discriminate.
  - split; [exact Hrange|]. apply Hbound, eastern_2024_offsets.
Defined.

(** [defaultRange] throws a RangeError when the start instant is not a
    representable time value: [setDate] leaves an invalid date, which
    [toISOString] refuses. *)
Theorem defaultRange_invalid_start (host : Host) (days : option Z) :
  Day (LocalTime (zone host) (now host 1%nat)) = Day (LocalTime (zone host) (now host 0%nat)) ->
  8640000000000000 < Z.abs (default_start host days) ->
  defaultRange host days = Throw RangeError_invalid_time.
Proof.
  intros Hlday Hclip. rewrite defaultRange_start by done. unfold TimeClip.
  by destruct (Z.leb_spec (Z.abs (default_start host days)) 8640000000000000); [lia|].
Qed.

Lemma defaultRange_invalid_start_witness :
  defaultRange example_eastern_host (Some 200000000000) = Throw RangeError_invalid_time.
Proof.
  apply (defaultRange_invalid_start example_eastern_host (Some 200000000000)).
  - reflexivity.
  - vm_compute. reflexivity.
Defined.

(** ** Views, end to end *)

Lemma handler_200 (r : route) (host : Host) (query : Query) :
  status (handler r host query) = 200 ->
  exists range res objs,
    resolve_range host query = Normal range /\
    analyticsDataClient host (route_request r host query range) = Normal res /\
    rowsToObjects (res_rows res) (res_dimensionHeaders res) (res_metricHeaders res)
      = Normal objs /\
    handler r host query =
      {| status := 200;
         body := route_body r query range {| meta := report_meta res; rows := objs |};
         logged := [] |}.
Proof.
  rewrite handler_shape. unfold route_reply, runReport, route_request.
  cbn [default from_option id].
  destruct (resolve_range host query) as [range|e]; cbn [mbind completion_bind try_catch];
    [|done].
  destruct (analyticsDataClient host _) as [res|e] eqn:Hres;
    cbn [mbind completion_bind try_catch]; [|done].
  destruct (rowsToObjects _ _ _) as [objs|e] eqn:Hobjs;
    cbn [mbind completion_bind try_catch]; [|done].
  intros _. by exists range, res, objs.
Qed.

Lemma overview_metrics_not_proto (k : string) : k ∈ overview_metrics -> k <> "__proto__".
Proof.
  unfold overview_metrics. intros Hk.
  repeat (apply elem_of_cons in Hk as [->|Hk]; [done|]).
  by apply elem_of_nil in Hk.
Qed.

Lemma body_kpi_overview (query : Query) (range : DateRange) (data : ReportResult) (k : string) :
  k ∈ overview_metrics ->
  body_kpi (route_body Overview query range data) k =
    Some (kpi (match rows data with r :: _ => r | [] => empty_object end) k).
Proof.
  unfold overview_metrics. intros Hk.
  repeat (apply elem_of_cons in Hk as [->|Hk]; [reflexivity|]).
  by apply elem_of_nil in Hk.
Qed.

(** A KPI of the overview, from the upstream response: it is the number
    that [Number] makes of the first row's metric value at the place of
    the last metric header bearing the KPI's name, and 0 when that value
    is missing.  Rows after the first, and dimensions, play no part; a
    value that is not numeric gives NaN, which [??] does not replace. *)
Theorem overview_kpi_from_report (host : Host) (query : Query) (range : DateRange)
    (res : RunReportResponse) (row : Row) (rest : list Row) (dhs mhs : list Header)
    (i : nat) (h : Header) :
  resolve_range host query = Normal range ->
  analyticsDataClient host (route_request Overview host query range) = Normal res ->
  res_rows res = defined (row :: rest) ->
  res_dimensionHeaders res = defined dhs ->
  res_metricHeaders res = defined mhs ->
  mhs !! i = Some h ->
  header_key h ∈ overview_metrics ->
  (forall j h', (i < j)%nat -> mhs !! j = Some h' -> header_key h' <> header_key h) ->
  body_kpi (body (overview host query)) (header_key h) =
    Some (VNum (match value_at (metricValues row) i with
                | Some s => StringToNumber s
                | None => pos_zero
                end)).
Proof.
  intros Hrange Hres Hrows Hdhs Hmhs Hi Hk Hlast.
  pose proof (handler_resolved Overview host query range res
                (map (flat_row dhs mhs) (row :: rest)) Hrange Hres) as Hreply.
  cbn [handler] in Hreply. rewrite Hreply.
  2: { rewrite Hrows, Hdhs, Hmhs. apply rowsToObjects_defined. }
  cbn [body]. rewrite body_kpi_overview by done. cbn [rows map].
  unfold kpi, get_prop.
  rewrite (flat_row_metric dhs mhs row i h Hi (overview_metrics_not_proto _ Hk) Hlast).
  unfold metric_value. by destruct (value_at (metricValues row) i).
Qed.

Lemma overview_kpi_from_report_witness :
  body_kpi (body (overview (example_host (fun _ => Normal example_odd_overview))
                    (example_january None)))
    (header_key (example_header "bounceRate"))
  = Some (VNum (match value_at (metricValues (example_row ["NL"] ["57"; "n/a"])) 1 with
                | Some s => StringToNumber s
                | None => pos_zero
                end)).
Proof.
  apply (overview_kpi_from_report (example_host (fun _ => Normal example_odd_overview))
           (example_january None) january example_odd_overview
           (example_row ["NL"] ["57"; "n/a"]) [example_row ["BE"] ["3"; "0.5"]]
           (map example_header ["country"]) (map example_header ["sessions"; "bounceRate"])
           1 (example_header "bounceRate")).
  - reflexivity.
  - reflexivity.
  - reflexivity.
  - reflexivity.
  - reflexivity.
  - reflexivity.
  - unfold overview_metrics. cbn [example_header header_key name].
    do 7 right. left.
  - intros [|[|[|j]]] h' Hj Hh'; try lia; discriminate Hh'.
Defined.



(** The range a successful reply reports is the range that was asked of
    the upstream, and the only one: the request carried exactly that
    range, under the configured property. *)
Theorem reply_echoes_range (r : route) (host : Host) (query : Query) :
  status (handler r host query) = 200 ->
  exists range res,
    body_range (body (handler r host query)) = Some range /\
    resolve_range host query = Normal range /\
    analyticsDataClient host (route_request r host query range) = Normal res /\
    dateRanges (route_request r host query range) = [range] /\
    property (route_request r host query range) = "properties/" +:+ PROPERTY_ID host.
Proof.
  intros (range & res & objs & Hrange & Hres & _ & Hreply)%handler_200.
  exists range, res. rewrite Hreply. cbn [body]. split_and!; try done. by destruct r.
Qed.

Lemma reply_echoes_range_witness :
  exists range res,
    body_range (body (handler Devices (example_host (fun _ => Normal example_devices))
                        (example_january None))) = Some range /\
    resolve_range (example_host (fun _ => Normal example_devices)) (example_january None)
      = Normal range /\
    analyticsDataClient (example_host (fun _ => Normal example_devices))
      (route_request Devices (example_host (fun _ => Normal example_devices))
         (example_january None) range) = Normal res /\
    dateRanges (route_request Devices (example_host (fun _ => Normal example_devices))
                  (example_january None) range) = [range] /\
    property (route_request Devices (example_host (fun _ => Normal example_devices))
                (example_january None) range)
      = "properties/" +:+ PROPERTY_ID (example_host (fun _ => Normal example_devices)).
Proof.
  apply (reply_echoes_range Devices (example_host (fun _ => Normal example_devices))
           (example_january None)).
  reflexivity.
Defined.

(** Without a [limit] parameter a ranked route returns ten rows, or all
    of them when there are fewer. *)
Theorem default_limit_ten (r : route) (host : Host) (query : Query) (out : list object) :
  is_Some (designated_metric r) ->
  limit query = None ->
  reply_rows (handler r host query) = Some out ->
  exists range data,
    resolve_range host query = Normal range /\
    runReport host [range] (Some (route_dimensions r)) (Some (route_metrics r query))
      = Normal data /\
    length out = (10 `min` length (rows data))%nat.
Proof.
  intros [k Hk] Hlimit Hout.
  destruct (resolve_range host query) as [range|e] eqn:Hrange; cycle 1.
  { rewrite handler_shape, Hrange in Hout. discriminate Hout. }
  destruct (runReport host [range] (Some (route_dimensions r)) (Some (route_metrics r query)))
    as [data|e] eqn:Hdata; cycle 1.
  { rewrite handler_shape, Hrange in Hout. unfold route_reply in Hout.
    cbn [mbind completion_bind] in Hout. rewrite Hdata in Hout. discriminate Hout. }
  exists range, data. split; [done|]. split; [done|].
  rewrite (ranked_reply r k host query range data) in Hout by done.
  injection Hout as <-. unfold Number_limit. rewrite Hlimit.
  change (ToIntegerOrInfinity (ToNumber (VNum (num_of_Z 10)))) with (Finite 10).
  cbn [clamp_index]. change (10 <? 0) with false. cbn match.
  rewrite length_take, array_sort_length. lia.
Qed.

Lemma default_limit_ten_witness :
  exists range data,
    resolve_range (example_host (fun _ => Normal example_tied_pages)) (example_january None)
      = Normal range /\
    runReport (example_host (fun _ => Normal example_tied_pages)) [range]
      (Some (route_dimensions TopPages))
      (Some (route_metrics TopPages (example_january None))) = Normal data /\
    length (array_sort (descending_by "screenPageViews") (rows example_tied_result))
      = (10 `min` length (rows data))%nat.
Proof.
  apply (default_limit_ten TopPages (example_host (fun _ => Normal example_tied_pages))
           (example_january None)
           (array_sort (descending_by "screenPageViews") (rows example_tied_result))).
  - by eexists.
  - reflexivity.
  - rewrite (ranked_reply TopPages "screenPageViews" _ _ january example_tied_result).
    + vm_compute. reflexivity.
    + reflexivity.
    + apply example_january_range.
    + apply example_runReport.
Defined.
